(** * The command line interface of the container builder (src/builder/cli.py)

  A shallow embedding of [builder/cli.py]: the docstring help extractor
  [_extract_help_from_docstring], the subcommands [Build] and [Info], and
  the dispatcher [BuilderCLI].

  Text is modelled by [string]: a Python [str] whose characters are the
  code points U+0000..U+00FF, one [ascii] per code point.  The methods of
  [str] the module uses are written out for that range in [PyStr]. *)

From Stdlib Require Import String Ascii List Bool NArith ZArith Lia.
Import ListNotations.

Local Open Scope list_scope.
Local Open Scope string_scope.

(* ------------------------------------------------------------------ *)
(** ** Python's [str] methods used by the module *)

Module PyStr.

Definition code (c : ascii) : N := N_of_ascii c.

Definition in_range (lo hi : N) (c : ascii) : bool :=
  (N.leb lo (code c) && N.leb (code c) hi)%bool.

(** Line boundaries of [str.splitlines]: LF, VT, FF, CR, FS, GS, RS and
    NEL (and CR LF taken as one). *)
Definition is_linebreak (c : ascii) : bool :=
  (in_range 10 13 c || in_range 28 30 c || N.eqb (code c) 133)%bool.

Definition is_cr (c : ascii) : bool := N.eqb (code c) 13.
Definition is_lf (c : ascii) : bool := N.eqb (code c) 10.

(** White space of [str.strip] and [str.lstrip] without argument. *)
Definition is_space (c : ascii) : bool :=
  (in_range 9 13 c || in_range 28 32 c
   || N.eqb (code c) 133 || N.eqb (code c) 160)%bool.

(** [str.splitlines()]: the lines without their line breaks; a final line
    break opens no further line. *)
Fixpoint splitlines (s : string) : list string :=
  match s with
  | EmptyString => []
  | String c s' =>
      if is_linebreak c then
        EmptyString ::
          match s' with
          | EmptyString => []
          | String c2 s'' =>
              if (is_cr c && is_lf c2)%bool then splitlines s''
              else splitlines s'
          end
      else
        match splitlines s' with
        | [] => [String c EmptyString]
        | l :: ls => String c l :: ls
        end
  end.

(** [p] is an initial segment of [s] ([s.startswith(p)]). *)
Fixpoint startswith (p s : string) : bool :=
  match p, s with
  | EmptyString, _ => true
  | String _ _, EmptyString => false
  | String a p', String b s' => (Ascii.eqb a b && startswith p' s')%bool
  end.

(** [needle in hay]: the substring test. *)
Fixpoint str_in (needle hay : string) : bool :=
  (startswith needle hay
   || match hay with
      | EmptyString => false
      | String _ hay' => str_in needle hay'
      end)%bool.

(** [c in chars] for a single character. *)
Fixpoint char_in (c : ascii) (chars : string) : bool :=
  match chars with
  | EmptyString => false
  | String d chars' => (Ascii.eqb c d || char_in c chars')%bool
  end.

(** [s.lstrip()]. *)
Fixpoint lstrip (s : string) : string :=
  match s with
  | EmptyString => EmptyString
  | String c s' => if is_space c then lstrip s' else s
  end.

(** [s.rstrip()]. *)
Fixpoint rstrip (s : string) : string :=
  match s with
  | EmptyString => EmptyString
  | String c s' =>
      match rstrip s' with
      | EmptyString => if is_space c then EmptyString else String c EmptyString
      | r => String c r
      end
  end.

(** [s.strip()]. *)
Definition strip (s : string) : string := lstrip (rstrip s).

(** [s.rstrip(chars)]: the trailing characters that occur in [chars] are
    removed. *)
Fixpoint rstrip_chars (chars s : string) : string :=
  match s with
  | EmptyString => EmptyString
  | String c s' =>
      match rstrip_chars chars s' with
      | EmptyString =>
          if char_in c chars then EmptyString else String c EmptyString
      | r => String c r
      end
  end.

(** [str.lower] on one code point: A-Z and the capital letters
    U+00C0..U+00DE (the multiplication sign U+00D7 apart) move up by 32. *)
Definition lower_char (c : ascii) : ascii :=
  if (in_range 65 90 c
      || (in_range 192 222 c && negb (N.eqb (code c) 215)))%bool
  then ascii_of_N (code c + 32)
  else c.

Fixpoint lower (s : string) : string :=
  match s with
  | EmptyString => EmptyString
  | String c s' => String (lower_char c) (lower s')
  end.

(** [sep.join(parts)] for the empty separator. *)
Fixpoint join_empty (parts : list string) : string :=
  match parts with
  | [] => EmptyString
  | p :: ps => p ++ join_empty ps
  end.

(** [sep.join(parts)]. *)
Fixpoint join (sep : string) (parts : list string) : string :=
  match parts with
  | [] => EmptyString
  | [p] => p
  | p :: ps => p ++ sep ++ join sep ps
  end.

(** The substring relation, stated without the algorithm. *)
Definition Occurs (needle hay : string) : Prop :=
  exists pre post, hay = pre ++ needle ++ post.

Definition dquote : string := String (ascii_of_N 34) EmptyString.
Definition LF : string := String (ascii_of_N 10) EmptyString.

End PyStr.

(* ------------------------------------------------------------------ *)
(** ** Results and exceptions *)

Module Py.

(** The exception classes the module raises or catches; [OtherError]
    stands for any other class a collaborator may raise. *)
Inductive exc_class :=
| KeyError
| AttributeError
| TypeError
| IndexError
| SystemExit (code : Z)
| OtherError (name : string).

Record exn := Exn { exn_class : exc_class; exn_msg : string }.

(** [isinstance(e, LookupError)]: [KeyError] and [IndexError] derive
    from [LookupError]. *)
Definition is_LookupError (e : exn) : bool :=
  match exn_class e with
  | KeyError | IndexError => true
  | _ => false
  end.

Definition is_AttributeError (e : exn) : bool :=
  match exn_class e with
  | AttributeError => true
  | _ => false
  end.

Inductive result (A : Type) :=
| Return (a : A)
| Raise (e : exn).
Arguments Return {A} a.
Arguments Raise {A} e.

End Py.

(* ------------------------------------------------------------------ *)
(** ** The help extractor *)

Module Extractor.
Import PyStr Py.

(** The two locals of the loop. *)
Record locals := Locals { arg_found : bool; arg_desc : list string }.

Inductive step :=
| Next (st : locals)
| Returned (value : string).

(** One pass through the body of [for line in docstring.splitlines()]. *)
Definition loop_body (arg : string) (st : locals) (line : string) : step :=
  if arg_found st then
    if (str_in " : " line || String.eqb (strip line) "")%bool then
      Returned
        (rstrip_chars "." (lower (lstrip (join_empty (arg_desc st)))))
    else
      Next (Locals true (arg_desc st ++ [line; " "])%list)
  else if str_in (arg ++ " : ") line then
    Next (Locals true (arg_desc st))
  else
    Next st.

(** The [for] loop; [None] when the lines are exhausted, which is where
    the [else] clause of the loop runs. *)
Fixpoint for_loop (arg : string) (st : locals) (lines : list string)
  : option string :=
  match lines with
  | [] => None
  | line :: rest =>
      match loop_body arg st line with
      | Returned v => Some v
      | Next st' => for_loop arg st' rest
      end
  end.

Section WithRepr.
(** [repr] of a [str], Python's builtin, used by the [{arg=}] field of
    the error message. *)
Variable repr : string -> string.

(** [f"The docstring does not include {arg=}"]. *)
Definition missing_arg_message (arg : string) : string :=
  "The docstring does not include arg=" ++ repr arg.

(** The function: the loop over the lines of the docstring, and the
    [else] clause of the loop, which raises [KeyError]. *)
Definition _extract_help_from_docstring (arg docstring : string)
  : result string :=
  match for_loop arg (Locals false []) (splitlines docstring) with
  | Some v => Return v
  | None => Raise (Exn KeyError (missing_arg_message arg))
  end.
End WithRepr.

End Extractor.


(* ------------------------------------------------------------------ *)
(** ** [pathlib.Path], as far as the module uses it *)

Module PyPath.
Import PyStr.

(** A POSIX path after parsing: its root and its components. *)
Inductive root := NoRoot | Slash | TwoSlashes.

Record Path := MkPath { path_root : root; path_parts : list string }.

Definition root_str (r : root) : string :=
  match r with
  | NoRoot => ""
  | Slash => "/"
  | TwoSlashes => "//"
  end.

(** [p.is_absolute()]. *)
Definition is_absolute (p : Path) : bool :=
  match path_root p with
  | NoRoot => false
  | _ => true
  end.

(** [p.absolute()], where [cwd] is what [os.getcwd()] gives: an absolute
    path is returned as it is, a relative one is joined to [cwd]. *)
Definition absolute (cwd p : Path) : Path :=
  if is_absolute p then p
  else MkPath (path_root cwd) (path_parts cwd ++ path_parts p)%list.

(** [p.as_posix()]. *)
Definition as_posix (p : Path) : string :=
  match path_root p, path_parts p with
  | NoRoot, [] => "."
  | r, parts => root_str r ++ join "/" parts
  end.

End PyPath.

(* ------------------------------------------------------------------ *)
(** ** The module [builder/cli.py] *)

Module Cli.
Import PyStr Py PyPath.
Export Extractor.

(** The two subcommand classes, as values ([subcommand_cls]). *)
Inductive subcommand_class := cls_Build | cls_Info.

(** [cls.__name__]. *)
Definition class_name (c : subcommand_class) : string :=
  match c with
  | cls_Build => "Build"
  | cls_Info => "Info"
  end.

(** The Python values that reach the module. *)
Inductive value :=
| VNone
| VStr (s : string)
| VPath (p : Path)
| VClass (c : subcommand_class).

(** [type(v).__name__]. *)
Definition type_name (v : value) : string :=
  match v with
  | VNone => "NoneType"
  | VStr _ => "str"
  | VPath _ => "PosixPath"
  | VClass _ => "type"
  end.

(** *** Docstrings, as written in the source text *)

Definition Build_doc : string :=
  join LF
    [ "";
      "    Build a container.";
      "";
      "    The " ++ dquote ++ "build" ++ dquote ++ " subcommand.";
      "";
      "    Parameters";
      "    ----------";
      "    image_path : pathlike";
      "        Path to the built container image.";
      "    base_image : str";
      "        Base image to use for the container which may be any valid";
      "        Apptainer/Singularity <BUILD SPEC>.";
      "    conda_env : pathlike, optional";
      "        Path to a Conda environment.yml file to install and activate in the";
      "        container.";
      "    " ].

Definition Info_doc : string :=
  join LF
    [ "";
      "    Obtain info about the state of all required dependencies for building a container.";
      "";
      "    The " ++ dquote ++ "info" ++ dquote ++ " subcommand.";
      "    " ].

Definition BuilderCLI_doc : string :=
  join LF
    [ "";
      "    Build Apptainer/Singularity containers for HPC systems in user space.";
      "";
      "    The main CLI command.";
      "    " ].

Definition class_doc (c : subcommand_class) : string :=
  match c with
  | cls_Build => Build_doc
  | cls_Info => Info_doc
  end.

(** *** The state of a run and the external collaborators *)

(** What [Sandbox.__enter__] returns, and a [CondaInstall] object: the
    attributes [Build.execute] reads. *)
Record sandbox := { sandbox_dir : value }.
Record conda_install := { conda_runtime_bootstrap_script : value }.

(** The calls into the modules [container] and [pack]. *)
Inductive call :=
| Sandbox_new (base_image : value)
| Sandbox_enter
| Sandbox_exit (exc : option exn)
| Sandbox_add_to_env (line : value)
| Sandbox_build_image (image_path : Path)
| CondaInstall_new (dir : value)
| CondaInstall_run_command (command : string)
| CondaInstall_cleanup_unused_files.

Definition returns (c : call) : Type :=
  match c with
  | Sandbox_enter => sandbox
  | Sandbox_exit _ => bool
  | CondaInstall_new _ => conda_install
  | _ => unit
  end.

(** A call together with whether it returned ([true]) or raised. *)
Record event := Event { ev_call : call; ev_returned : bool }.

(** The collaborators: what a call does, given the calls made so far. *)
Definition world := list event -> forall c : call, result (returns c).

Record state := State { trace : list event; stdout : string }.

Definition M (A : Type) : Type := state -> state * result A.

Definition ret {A} (a : A) : M A := fun s => (s, Return a).

Definition raise {A} (e : exn) : M A := fun s => (s, Raise e).

Definition bind {A B} (m : M A) (k : A -> M B) : M B :=
  fun s =>
    match m s with
    | (s', Return a) => k a s'
    | (s', Raise e) => (s', Raise e)
    end.

Notation "x <- m ;; k" := (bind m (fun x => k))
  (at level 61, m at next level, right associativity).
Notation "m ;; k" := (bind m (fun _ => k))
  (at level 61, right associativity).

Definition lift {A} (r : result A) : M A := fun s => (s, r).

(** [print(text)]. *)
Definition print (text : string) : M unit :=
  fun s => (State (trace s) (stdout s ++ text ++ LF), Return tt).

(** Writing [text] to the standard output as it is. *)
Definition write_stdout (text : string) : M unit :=
  fun s => (State (trace s) (stdout s ++ text), Return tt).

Definition is_Return {A} (r : result A) : bool :=
  match r with
  | Return _ => true
  | Raise _ => false
  end.

Definition invoke (w : world) (c : call) : M (returns c) :=
  fun s =>
    let r := w (trace s) c in
    (State (trace s ++ [Event c (is_Return r)])%list (stdout s), r).

(** The [with] statement: [with new as h: body].  The manager is created
    and entered; the body runs; [__exit__] is called with the exception of
    the body, if any, and a true result suppresses that exception. *)
Definition with_ {H} (new : M unit) (enter : M H)
    (exit : option exn -> M bool) (body : H -> M unit) : M unit :=
  new ;;
  h <- enter ;;
  fun s =>
    match body h s with
    | (s', Return _) => (exit None ;; ret tt) s'
    | (s', Raise e) =>
        (suppress <- exit (Some e) ;;
         if suppress : bool then ret tt else raise e) s'
    end.

(** *** class Build *)

Record Build := MkBuild {
  image_path : Path;
  base_image : value;
  conda_env : option Path
}.

(** The [AttributeError] of reading the attribute [name] of a value that
    has none of that name; a class is named in it as a type object. *)
Definition no_attribute (v : value) (name : string) : exn :=
  Exn AttributeError
      match v with
      | VClass c =>
          "type object '" ++ class_name c ++ "' has no attribute '"
          ++ name ++ "'"
      | _ => "'" ++ type_name v ++ "' object has no attribute '" ++ name ++ "'"
      end.

Section WithCwd.
(** The working directory of the process, as [os.getcwd()] returns it.
    (That [os.getcwd()] may raise instead is in [Build_init_os] below.) *)
Variable cwd : Path.

(** [v.absolute()]: only a path has the method. *)
Definition call_absolute (v : value) : result Path :=
  match v with
  | VPath p => Return (absolute cwd p)
  | _ => Raise (no_attribute v "absolute")
  end.

(** [Build.__init__(self, *, image_path=None, base_image=None,
    conda_env=None)]. *)
Definition Build_init (image_path base_image conda_env : value)
  : result Build :=
  match call_absolute image_path with
  | Raise e => Raise e
  | Return image_path' =>
      match conda_env with
      | VNone => Return (MkBuild image_path' base_image None)
      | _ =>
          match call_absolute conda_env with
          | Raise e => Raise e
          | Return conda_env' =>
              Return (MkBuild image_path' base_image (Some conda_env'))
          end
      end
  end.
End WithCwd.

Section WithGetcwd.
(** [os.getcwd()] as the process finds it: the outcome of its [n]-th call
    during the construction (counted from 0), a path or the [OSError] it
    raises when the working directory no longer exists. *)
Variable getcwd : nat -> result Path.

(** [v.absolute()] with [os.getcwd()] as it is, [asked] being the number
    of calls of [os.getcwd()] made before: an absolute path is returned
    as it is, without a call; a relative one is joined to what the call
    returns, and the call may raise.  The result comes with the number
    of calls made after it. *)
Definition call_absolute_os (asked : nat) (v : value)
  : result (Path * nat) :=
  match v with
  | VPath p =>
      if is_absolute p then Return (p, asked)
      else
        match getcwd asked with
        | Return cwd =>
            Return (MkPath (path_root cwd) (path_parts cwd ++ path_parts p)%list,
                    S asked)
        | Raise e => Raise e
        end
  | _ => Raise (no_attribute v "absolute")
  end.

(** [Build.__init__] with [os.getcwd()] as it is. *)
Definition Build_init_os (image_path base_image conda_env : value)
  : result Build :=
  match call_absolute_os 0 image_path with
  | Raise e => Raise e
  | Return (image_path', asked) =>
      match conda_env with
      | VNone => Return (MkBuild image_path' base_image None)
      | _ =>
          match call_absolute_os asked conda_env with
          | Raise e => Raise e
          | Return (conda_env', _) =>
              Return (MkBuild image_path' base_image (Some conda_env'))
          end
      end
  end.
End WithGetcwd.

Section WithWorld.
Variable w : world.

(** [Build.execute(self)]. *)
Definition Build_execute (self : Build) : M unit :=
  with_ (invoke w (Sandbox_new (base_image self)))
        (invoke w Sandbox_enter)
        (fun exc => invoke w (Sandbox_exit exc))
        (fun sandbox =>
           match conda_env self with
           | Some env =>
               conda_install <-
                 invoke w (CondaInstall_new (sandbox_dir sandbox)) ;;
               let conda_env_name := "conda_container_env" in
               invoke w (CondaInstall_run_command
                           (("conda env create -f " ++ as_posix env ++ " ")
                            ++ ("-n " ++ conda_env_name))) ;;
               invoke w (Sandbox_add_to_env
                           (conda_runtime_bootstrap_script conda_install)) ;;
               invoke w (Sandbox_add_to_env
                           (VStr ("conda activate " ++ conda_env_name))) ;;
               invoke w CondaInstall_cleanup_unused_files
           | None => ret tt
           end ;;
           invoke w (Sandbox_build_image (image_path self))).
End WithWorld.

(** *** class Info *)

(** [Info.execute(self)]. *)
Definition Info_execute : M unit :=
  print "Sorry, no information about your system is available at this time.".

(** *** The argument parser, as the module builds it *)

(** An [add_argument] call: the name or flag, [required=True], the help
    text and [type=pathlib.Path]. *)
Record argument := MkArgument {
  arg_flag : string;
  arg_required : bool;
  arg_help : string;
  arg_is_path : bool
}.

(** An [add_parser] call, the arguments added to the sub-parser, and its
    [set_defaults(subcommand_cls=...)]. *)
Record sub_parser := MkSubParser {
  sp_name : string;
  sp_help : string;
  sp_description : string;
  sp_arguments : list argument;
  sp_subcommand_cls : subcommand_class
}.

Record arg_parser := MkParser {
  description : string;
  subparsers_title : string;
  subparsers : list sub_parser
}.

Definition namespace := list (string * value).

(** What [parser.parse_args()] does: it returns a namespace, or writes to
    the standard output and raises [SystemExit]. *)
Inductive parse_outcome :=
| Parsed (ns : namespace)
| Exits (output : string) (code : Z).

Definition rbind {A B} (r : result A) (k : A -> result B) : result B :=
  match r with
  | Return a => k a
  | Raise e => Raise e
  end.

(** [doc.strip().splitlines()[0]]. *)
Definition doc_summary (doc : string) : result string :=
  match splitlines (strip doc) with
  | [] => Raise (Exn IndexError "list index out of range")
  | line :: _ => Return line
  end.

(** The subcommand objects: a [Build], an [Info], or the local class
    [NoSubcommand], which holds the parser it was defined under. *)
Inductive command :=
| Build_object (self : Build)
| Info_object
| NoSubcommand_object (parser : arg_parser).

Record BuilderCLI := MkBuilderCLI {
  args : namespace;
  subcommand : command
}.

Fixpoint lookup (key : string) (ns : namespace) : option value :=
  match ns with
  | [] => None
  | (k, v) :: rest => if String.eqb k key then Some v else lookup key rest
  end.

Section WithEnvironment.
Variable repr : string -> string.
Variable cwd : Path.
Variable w : world.
(** [argparse]: parsing an argument vector with a parser, and the help
    text of a parser. *)
Variable parse_args : arg_parser -> list string -> parse_outcome.
Variable format_help : arg_parser -> string.

(** [Build.add_arguments(cls, parser)]: the three [add_argument] calls. *)
Definition Build_add_arguments : result (list argument) :=
  rbind (_extract_help_from_docstring repr "image_path" Build_doc) (fun h1 =>
  rbind (_extract_help_from_docstring repr "base_image" Build_doc) (fun h2 =>
  rbind (_extract_help_from_docstring repr "conda_env" Build_doc) (fun h3 =>
  Return [ MkArgument "image_path" false h1 true;
           MkArgument "--base-image" true h2 false;
           MkArgument "--conda-env" false h3 true ]))).

(** [Info.add_arguments(cls, parser)]: [pass]. *)
Definition Info_add_arguments : result (list argument) := Return [].

Definition add_arguments (cls : subcommand_class) : result (list argument) :=
  match cls with
  | cls_Build => Build_add_arguments
  | cls_Info => Info_add_arguments
  end.

(** The loop [for subcommand_cls in subcommands].  The classes of the list
    are taken to differ, as [Build] and [Info] do: what [add_parser] does
    with a name registered twice is left to [argparse]. *)
Fixpoint add_subcommands (subcommands : list subcommand_class)
  : result (list sub_parser) :=
  match subcommands with
  | [] => Return []
  | cls :: rest =>
      rbind (doc_summary (class_doc cls)) (fun summary =>
      rbind (add_arguments cls) (fun arguments =>
      rbind (add_subcommands rest) (fun others =>
      Return (MkSubParser (lower (class_name cls)) summary summary
                          arguments cls :: others))))
  end.

(** The first part of [BuilderCLI.__init__]: the parser. *)
Definition make_parser : result arg_parser :=
  rbind (doc_summary BuilderCLI_doc) (fun builder_cli_doc_summary =>
  rbind (add_subcommands [cls_Build; cls_Info]) (fun subs =>
  Return (MkParser builder_cli_doc_summary "subcommands" subs))).

Definition run_parse_args (parser : arg_parser) (argv : list string)
  : M namespace :=
  match parse_args parser argv with
  | Parsed ns => ret ns
  | Exits output code =>
      write_stdout output ;; raise (Exn (SystemExit code) "")
  end.

(** Calling a class with keyword arguments, for the two classes: [Build] takes its three keyword
    arguments, each [None] when absent; [Info] takes none. *)
Definition Build_keywords : list string :=
  ["image_path"; "base_image"; "conda_env"].

Definition keyword_or_None (key : string) (kwargs : namespace) : value :=
  match lookup key kwargs with
  | Some v => v
  | None => VNone
  end.

Definition instantiate (cls : subcommand_class) (kwargs : namespace)
  : result command :=
  match cls with
  | cls_Build =>
      match filter (fun kv => negb (existsb (String.eqb (fst kv))
                                            Build_keywords)) kwargs with
      | [] =>
          rbind (Build_init cwd (keyword_or_None "image_path" kwargs)
                                (keyword_or_None "base_image" kwargs)
                                (keyword_or_None "conda_env" kwargs))
                (fun self => Return (Build_object self))
      | (k, _) :: _ =>
          Raise (Exn TypeError
                   ("Build.__init__() got an unexpected keyword argument "
                    ++ repr k))
      end
  | cls_Info =>
      match kwargs with
      | [] => Return Info_object
      | _ :: _ => Raise (Exn TypeError "Info() takes no arguments")
      end
  end.

(** The call of [self.args.subcommand_cls] with [subcommand_args] as its
    keyword arguments. *)
Definition construct_subcommand (ns subcommand_args : namespace)
  : result command :=
  match lookup "subcommand_cls" ns with
  | None =>
      Raise (Exn AttributeError
               "'Namespace' object has no attribute 'subcommand_cls'")
  | Some (VClass cls) => instantiate cls subcommand_args
  | Some v =>
      Raise (Exn TypeError ("'" ++ type_name v ++ "' object is not callable"))
  end.

(** [BuilderCLI.__init__(self)], with [argv] for [sys.argv[1:]]. *)
Definition BuilderCLI_init (argv : list string) : M BuilderCLI :=
  parser <- lift make_parser ;;
  ns <- run_parse_args parser argv ;;
  let subcommand_args :=
    filter (fun kv => negb (String.eqb (fst kv) "subcommand_cls")) ns in
  match construct_subcommand ns subcommand_args with
  | Return sub => ret (MkBuilderCLI ns sub)
  | Raise e =>
      if is_AttributeError e
      then ret (MkBuilderCLI ns (NoSubcommand_object parser))
      else raise e
  end.

(** [cli.subcommand.execute()]. *)
Definition execute (sub : command) : M unit :=
  match sub with
  | Build_object self => Build_execute w self
  | Info_object => Info_execute
  | NoSubcommand_object parser => write_stdout (format_help parser)
  end.

(** The body of [if __name__ == "__main__"]. *)
Definition main (argv : list string) : M unit :=
  cli <- BuilderCLI_init argv ;;
  execute (subcommand cli).

(** The process: what it wrote to the standard output, and its exit
    status: 0 when [main] returns, the code of a [SystemExit] (the status
    of the process for a code from 0 to 255, as those of [argparse]), and
    1 for any other exception, taken to be an ordinary error. *)
Definition run (argv : list string) : string * Z :=
  match main argv (State [] "") with
  | (s, Return _) => (stdout s, 0%Z)
  | (s, Raise e) =>
      match exn_class e with
      | SystemExit code => (stdout s, code)
      | _ => (stdout s, 1%Z)
      end
  end.
End WithEnvironment.

End Cli.

(* ------------------------------------------------------------------ *)
(** ** Vocabulary of the statements *)

Module Vocabulary.
Import PyStr Py PyPath Cli.

(** The test that ends a description: the line holds [" : "] or is blank. *)
Definition ends_description (line : string) : bool :=
  (str_in " : " line || String.eqb (strip line) "")%bool.

(** What [arg_desc] holds after the lines [body] were added to it. *)
Definition collected (body : list string) : list string :=
  flat_map (fun line => [line; " "]) body.

(** What the [return] statement makes of [arg_desc]. *)
Definition returned_help (arg_desc : list string) : string :=
  rstrip_chars "." (lower (lstrip (join_empty arg_desc))).

(** The help text in the words of the specification: the description
    lines joined by single spaces, leading white space stripped, lower
    case, trailing period removed. *)
Definition help_as_specified (body : list string) : string :=
  rstrip_chars "." (lower (lstrip (join " " body))).

(** The calls of a trace, and the number of those of one kind. *)
Definition calls (tr : list event) : list call := map ev_call tr.

Definition count_calls (kind : call -> bool) (tr : list event) : nat :=
  length (filter (fun e => kind (ev_call e)) tr).

Definition is_Sandbox_new (c : call) : bool :=
  match c with Sandbox_new _ => true | _ => false end.
Definition is_Sandbox_exit (c : call) : bool :=
  match c with Sandbox_exit _ => true | _ => false end.
Definition is_add_to_env (c : call) : bool :=
  match c with Sandbox_add_to_env _ => true | _ => false end.
Definition is_build_image (c : call) : bool :=
  match c with Sandbox_build_image _ => true | _ => false end.
Definition is_install (c : call) : bool :=
  match c with
  | CondaInstall_new _ | CondaInstall_run_command _ => true
  | _ => false
  end.
Definition is_cleanup (c : call) : bool :=
  match c with CondaInstall_cleanup_unused_files => true | _ => false end.

(** The scope discipline of the sandbox on a trace, [held] telling
    whether a sandbox is held before it: [__enter__] is called when none
    is held, and one is held from the moment it returns; every other
    method of the sandbox and every step of the installer is called while
    one is held; [__exit__] is called while one is held and releases it;
    none is held at the end. *)
Fixpoint scoped_from (held : bool) (tr : list event) : bool :=
  match tr with
  | [] => negb held
  | Event c returned :: rest =>
      match c with
      | Sandbox_new _ => negb held && scoped_from held rest
      | Sandbox_enter => negb held && scoped_from returned rest
      | Sandbox_exit _ => held && scoped_from false rest
      | _ => held && scoped_from held rest
      end
  end%bool.

Definition scoped (tr : list event) : bool := scoped_from false tr.

(** A world in which no call raises. *)
Definition all_return (w : world) : Prop :=
  forall tr c, is_Return (w tr c) = true.

(** The trace and the result of a computation started with no call made. *)
Definition trace_of {A} (m : M A) : list event :=
  trace (fst (m (State [] ""))).

Definition result_of {A} (m : M A) : result A := snd (m (State [] "")).

(** Whether [Sandbox(base_image)] and its [__enter__] return in [w]. *)
Definition sandbox_created (w : world) (base_image : value) : bool :=
  (is_Return (w [] (Sandbox_new base_image))
   && is_Return (w [Event (Sandbox_new base_image) true] Sandbox_enter))%bool.

(** *** Instances of the parameters, for the examples *)

(** [repr] as it is on printable text without quotes or backslashes. *)
Definition repr_plain (s : string) : string := "'" ++ s ++ "'".

(** A world in which every call returns; [__exit__] returns [False]. *)
Definition quiet_world : world :=
  fun _ c =>
    match c return result (returns c) with
    | Sandbox_enter => Return {| sandbox_dir := VStr "/tmp/sandbox" |}
    | Sandbox_exit _ => Return false
    | CondaInstall_new _ =>
        Return {| conda_runtime_bootstrap_script := VStr "source bootstrap.sh" |}
    | _ => Return tt
    end.

(** A world in which [run_command] raises. *)
Definition failing_install_world : world :=
  fun _ c =>
    match c return result (returns c) with
    | Sandbox_enter => Return {| sandbox_dir := VStr "/tmp/sandbox" |}
    | Sandbox_exit _ => Return false
    | CondaInstall_new _ =>
        Return {| conda_runtime_bootstrap_script := VStr "source bootstrap.sh" |}
    | CondaInstall_run_command _ =>
        Raise (Exn (OtherError "CalledProcessError") "conda failed")
    | _ => Return tt
    end.

(** [argparse] on the two argument vectors of interest: a help text, no
    token giving the empty namespace, and the help flag printing the help
    text and leaving with status 0. *)
Definition format_help_model (p : arg_parser) : string :=
  "usage: cli.py [-h] {build,info} ..." ++ LF ++ LF ++ description p ++ LF.

Definition parse_args_model (p : arg_parser) (argv : list string)
  : parse_outcome :=
  match argv with
  | [] => Parsed []
  | token :: _ =>
      if (String.eqb token "--help" || String.eqb token "-h")%bool
      then Exits (format_help_model p) 0
      else Exits "" 2
  end.

Definition example_cwd : Path := MkPath Slash ["home"; "user"].

(** The parser [BuilderCLI.__init__] builds, computed from [make_parser]. *)
Definition cli_parser : arg_parser :=
  Eval vm_compute in
    match make_parser repr_plain with
    | Return parser => parser
    | Raise _ => MkParser "" "" []
    end.

Definition example_env : Path := MkPath Slash ["home"; "user"; "env.yml"].

Definition example_build : Build :=
  MkBuild (MkPath Slash ["home"; "user"; "image.sif"])
          (VStr "docker://ubuntu:22.04")
          (Some example_env).

Definition example_build_plain : Build :=
  MkBuild (MkPath Slash ["home"; "user"; "image.sif"])
          (VStr "docker://ubuntu:22.04")
          None.

(** Whether, on a trace, a call that raised is followed by nothing but
    the [__exit__] of the sandbox, given the exception. *)
Fixpoint fail_fast (tr : list event) : bool :=
  match tr with
  | [] => true
  | Event _ true :: rest => fail_fast rest
  | Event _ false :: rest =>
      match rest with
      | [] => true
      | [Event (Sandbox_exit (Some _)) _] => true
      | _ => false
      end
  end.

(** The calls of [Build.execute] with a Conda environment [env], in the
    order of the source, up to [build_image]; [dir] and [script] are the
    attributes read from the sandbox and from the installer. *)
Definition conda_build_steps (self : Build) (env : Path)
    (dir script : value) : list call :=
  [ Sandbox_new (base_image self);
    Sandbox_enter;
    CondaInstall_new dir;
    CondaInstall_run_command
      ("conda env create -f " ++ as_posix env ++ " -n conda_container_env");
    Sandbox_add_to_env script;
    Sandbox_add_to_env (VStr "conda activate conda_container_env");
    CondaInstall_cleanup_unused_files;
    Sandbox_build_image (image_path self) ].

(** The dictionary [subcommand_args] of [BuilderCLI.__init__]: the
    namespace without the key [subcommand_cls]. *)
Definition without_subcommand_cls (ns : namespace) : namespace :=
  filter (fun kv => negb (String.eqb (fst kv) "subcommand_cls")) ns.

(** The field [conda_env] as the keyword argument that gives it. *)
Definition conda_env_argument (conda_env : option Path) : value :=
  match conda_env with
  | Some p => VPath p
  | None => VNone
  end.

(** A world in which [__exit__] returns [True] and [build_image] raises. *)
Definition suppressing_world : world :=
  fun _ c =>
    match c return result (returns c) with
    | Sandbox_enter => Return {| sandbox_dir := VStr "/tmp/sandbox" |}
    | Sandbox_exit _ => Return true
    | CondaInstall_new _ =>
        Return {| conda_runtime_bootstrap_script := VStr "source bootstrap.sh" |}
    | Sandbox_build_image _ =>
        Raise (Exn (OtherError "CalledProcessError") "build failed")
    | _ => Return tt
    end.

(** A docstring whose last entry is the description of [arg], with no
    line after it. *)
Definition last_entry_doc : string :=
  join LF
    [ "Extract the description.";
      "";
      "arg : str";
      "    The name of the argument." ].

End Vocabulary.

(* ------------------------------------------------------------------ *)
(** ** Facts about the string operations *)

Import PyStr Py PyPath Cli Vocabulary.

Lemma append_empty_r (s : string) : s ++ "" = s.
Proof. induction s as [|c s IH]; simpl; [reflexivity | now rewrite IH]. Qed.

Lemma append_assoc (a b c : string) : (a ++ b) ++ c = a ++ (b ++ c).
Proof. induction a as [|x a IH]; simpl; [reflexivity | now rewrite IH]. Qed.

Lemma startswith_append (p post : string) : startswith p (p ++ post) = true.
Proof.
  induction p as [|a p IH]; simpl; [reflexivity|].
  now rewrite Ascii.eqb_refl, IH.
Qed.

Lemma startswith_split (p s : string) :
  startswith p s = true -> exists post, s = p ++ post.
Proof.
  revert s; induction p as [|a p IH]; intros s H.
  - exists s; reflexivity.
  - destruct s as [|b s]; simpl in H; [discriminate|].
    apply andb_true_iff in H as [Hab Hps].
    apply Ascii.eqb_eq in Hab; subst b.
    destruct (IH _ Hps) as [post ->].
    exists post; reflexivity.
Qed.

Lemma str_in_unfold (needle hay : string) :
  str_in needle hay =
  (startswith needle hay
   || match hay with
      | EmptyString => false
      | String _ hay' => str_in needle hay'
      end)%bool.
Proof. destruct hay; reflexivity. Qed.

(** [needle in hay] decides the substring relation. *)
Lemma str_in_Occurs (needle hay : string) :
  str_in needle hay = true <-> Occurs needle hay.
Proof.
  split.
  - induction hay as [|c hay IH]; rewrite str_in_unfold; intros H;
      apply orb_true_iff in H as [H|H].
    + apply startswith_split in H as [post ->]. exists "", post; reflexivity.
    + discriminate.
    + apply startswith_split in H as [post ->]. exists "", post; reflexivity.
    + destruct (IH H) as (pre & post & ->).
      exists (String c pre), post; reflexivity.
  - intros (pre & post & ->).
    induction pre as [|c pre IH]; rewrite str_in_unfold; simpl.
    + now rewrite startswith_append.
    + rewrite IH. apply orb_true_r.
Qed.

Lemma str_in_not_Occurs (needle hay : string) :
  str_in needle hay = false <-> ~ Occurs needle hay.
Proof.
  rewrite <- str_in_Occurs. destruct (str_in needle hay); split; intros H;
    try reflexivity; try discriminate; try (intros H'; discriminate).
  exfalso; apply H; reflexivity.
Qed.

(* ------------------------------------------------------------------ *)
(** ** The loop of the help extractor *)

Section Loop.
Variable arg : string.

Lemma loop_body_searching (desc : list string) (line : string) :
  loop_body arg (Locals false desc) line =
  Next (Locals (str_in (arg ++ " : ") line) desc).
Proof.
  unfold loop_body; simpl.
  destruct (str_in (arg ++ " : ") line); reflexivity.
Qed.

Lemma loop_body_describing (desc : list string) (line : string) :
  loop_body arg (Locals true desc) line =
  if ends_description line then Returned (returned_help desc)
  else Next (Locals true (desc ++ [line; " "])).
Proof. reflexivity. Qed.

(** Lines without the pattern are passed over. *)
Lemma for_loop_skip (desc pre rest : list string) :
  (forall l, In l pre -> ~ Occurs (arg ++ " : ") l) ->
  for_loop arg (Locals false desc) (pre ++ rest) =
  for_loop arg (Locals false desc) rest.
Proof.
  induction pre as [|l pre IH]; intros Hpre; [reflexivity|].
  simpl. rewrite loop_body_searching.
  assert (Hl : str_in (arg ++ " : ") l = false).
  { apply str_in_not_Occurs, Hpre; left; reflexivity. }
  rewrite Hl. apply IH. intros l' Hl'. apply Hpre; right; exact Hl'.
Qed.

(** The first line with the pattern sets [arg_found]. *)
Lemma for_loop_start (desc : list string) (line : string) (rest : list string) :
  Occurs (arg ++ " : ") line ->
  for_loop arg (Locals false desc) (line :: rest) =
  for_loop arg (Locals true desc) rest.
Proof.
  intros H. simpl. rewrite loop_body_searching.
  apply str_in_Occurs in H. now rewrite H.
Qed.

(** The description lines are added to [arg_desc], each with a space. *)
Lemma for_loop_collect (body : list string) :
  forall (desc rest : list string),
  (forall l, In l body -> ends_description l = false) ->
  for_loop arg (Locals true desc) (body ++ rest) =
  for_loop arg (Locals true (desc ++ collected body)) rest.
Proof.
  induction body as [|l body IH]; intros desc rest Hbody.
  - simpl. now rewrite app_nil_r.
  - simpl. rewrite loop_body_describing.
    rewrite (Hbody l (or_introl eq_refl)).
    rewrite IH by (intros l' Hl'; apply Hbody; right; exact Hl').
    now rewrite <- app_assoc.
Qed.

(** A blank line or a line with [" : "] returns the description. *)
Lemma for_loop_end (desc : list string) (line : string) (rest : list string) :
  ends_description line = true ->
  for_loop arg (Locals true desc) (line :: rest) = Some (returned_help desc).
Proof.
  intros H. simpl. rewrite loop_body_describing. now rewrite H.
Qed.

(** With no line left, the loop is exhausted, found or not. *)
Lemma for_loop_exhausted (st : locals) : for_loop arg st [] = None.
Proof. reflexivity. Qed.

End Loop.

(** What the extractor returns on a docstring with an entry for [arg]
    that a line ends: the collected lines, each followed by a space, after
    [lstrip], [lower] and [rstrip(".")]. *)
Lemma extract_terminated
    (repr : string -> string) (arg docstring : string)
    (pre : list string) (start : string) (body : list string)
    (stop : string) (post : list string) :
  splitlines docstring = (pre ++ start :: body ++ stop :: post)%list ->
  (forall l, In l pre -> ~ Occurs (arg ++ " : ") l) ->
  Occurs (arg ++ " : ") start ->
  (forall l, In l body -> ends_description l = false) ->
  ends_description stop = true ->
  _extract_help_from_docstring repr arg docstring =
  Return (returned_help (collected body)).
Proof.
  intros Hlines Hpre Hstart Hbody Hstop.
  unfold _extract_help_from_docstring. rewrite Hlines.
  rewrite for_loop_skip by exact Hpre.
  rewrite for_loop_start by exact Hstart.
  rewrite for_loop_collect by exact Hbody.
  rewrite for_loop_end by exact Hstop.
  reflexivity.
Qed.

(** What the extractor does when the entry for [arg] runs to the end of
    the docstring: the [else] clause of the loop raises. *)
Lemma extract_unterminated
    (repr : string -> string) (arg docstring : string)
    (pre : list string) (start : string) (body : list string) :
  splitlines docstring = (pre ++ start :: body)%list ->
  (forall l, In l pre -> ~ Occurs (arg ++ " : ") l) ->
  Occurs (arg ++ " : ") start ->
  (forall l, In l body -> ends_description l = false) ->
  _extract_help_from_docstring repr arg docstring =
  Raise (Exn KeyError (missing_arg_message repr arg)).
Proof.
  intros Hlines Hpre Hstart Hbody.
  unfold _extract_help_from_docstring. rewrite Hlines.
  rewrite for_loop_skip by exact Hpre.
  rewrite for_loop_start by exact Hstart.
  rewrite <- (app_nil_r body).
  rewrite for_loop_collect by exact Hbody.
  reflexivity.
Qed.

(* ------------------------------------------------------------------ *)
(** ** The returned text when at least one line was collected *)

Lemma rstrip_chars_kept (chars t : string) (c : ascii) :
  char_in c chars = false ->
  rstrip_chars chars (t ++ String c "") = t ++ String c "".
Proof.
  intros Hc. induction t as [|a t IH]; simpl.
  - now rewrite Hc.
  - rewrite IH. destruct t; reflexivity.
Qed.

Lemma lower_append (s t : string) : lower (s ++ t) = lower s ++ lower t.
Proof. induction s as [|c s IH]; simpl; [reflexivity | now rewrite IH]. Qed.

Lemma lstrip_empty_rstrip (s : string) : lstrip s = "" -> rstrip s = "".
Proof.
  induction s as [|c s IH]; simpl; [reflexivity|].
  destruct (is_space c) eqn:Hc; [|discriminate].
  intros H. now rewrite (IH H).
Qed.

Lemma rstrip_empty_lstrip (s : string) : rstrip s = "" -> lstrip s = "".
Proof.
  induction s as [|c s IH]; simpl; [reflexivity|].
  destruct (rstrip s) eqn:Hr; [|discriminate].
  destruct (is_space c) eqn:Hc; [|discriminate].
  intros _. now apply IH.
Qed.

(** A line that is not blank has a first character that is no space. *)
Lemma not_blank_lstrip (line : string) :
  String.eqb (strip line) "" = false -> lstrip line <> "".
Proof.
  intros H Hl. apply lstrip_empty_rstrip in Hl.
  unfold strip in H. rewrite Hl in H. discriminate H.
Qed.

Lemma lstrip_append (s t : string) :
  lstrip s <> "" -> lstrip (s ++ t) = lstrip s ++ t.
Proof.
  induction s as [|c s IH]; simpl; intros H.
  - contradiction.
  - destruct (is_space c); [now apply IH | reflexivity].
Qed.

Lemma lstrip_append_not_blank (s t : string) :
  lstrip s <> "" -> lstrip (s ++ t) <> "".
Proof.
  intros H. rewrite lstrip_append by exact H.
  destruct (lstrip s); [contradiction | discriminate].
Qed.

(** The collected items, joined with the empty separator, are the lines
    joined by single spaces, and one more space. *)
Lemma join_empty_collected (body : list string) :
  body <> [] -> join_empty (collected body) = join " " body ++ " ".
Proof.
  induction body as [|l body IH]; intros H; [contradiction|].
  destruct body as [|l' body].
  - reflexivity.
  - change (collected (l :: l' :: body))
      with (l :: " " :: collected (l' :: body)).
    change (join " " (l :: l' :: body))
      with (l ++ " " ++ join " " (l' :: body)).
    cbn [join_empty]. rewrite IH by discriminate.
    now rewrite !append_assoc.
Qed.

Lemma join_first_line (l : string) (body : list string) :
  exists rest, join " " (l :: body) = l ++ rest.
Proof.
  destruct body as [|l' body].
  - exists "". simpl. now rewrite append_empty_r.
  - exists (" " ++ join " " (l' :: body)). reflexivity.
Qed.

(** When at least one description line was collected, the function
    returns the lines joined by single spaces, without leading white
    space and in lower case, followed by a space: [rstrip(".")] removes
    nothing, since the text ends with the space added after the last
    line. *)
Lemma returned_help_collected (body : list string) :
  body <> [] ->
  (forall l, In l body -> ends_description l = false) ->
  returned_help (collected body) = lower (lstrip (join " " body)) ++ " ".
Proof.
  intros Hne Hbody.
  destruct body as [|l body]; [contradiction|].
  assert (Hl : lstrip l <> "").
  { apply not_blank_lstrip.
    specialize (Hbody l (or_introl eq_refl)).
    unfold ends_description in Hbody.
    apply orb_false_iff in Hbody as [_ Hb]. exact Hb. }
  assert (HJ : lstrip (join " " (l :: body)) <> "").
  { destruct (join_first_line l body) as [rest ->].
    now apply lstrip_append_not_blank. }
  unfold returned_help.
  rewrite join_empty_collected by discriminate.
  rewrite lstrip_append by exact HJ.
  rewrite lower_append. change (lower " ") with " ".
  now rewrite rstrip_chars_kept.
Qed.

Lemma length_append (s t : string) :
  String.length (s ++ t) = String.length s + String.length t.
Proof. induction s as [|c s IH]; simpl; [reflexivity | now rewrite IH]. Qed.

Lemma length_rstrip_chars (chars s : string) :
  String.length (rstrip_chars chars s) <= String.length s.
Proof.
  induction s as [|c s IH]; simpl; [lia|].
  destruct (rstrip_chars chars s) as [|d r]; simpl in *.
  - destruct (char_in c chars); simpl; lia.
  - lia.
Qed.

(** So, on an entry with at least one description line, the function
    never returns the help text as the specification words it: the text
    it returns is longer, by the space at least. *)
Lemma returned_help_not_as_specified (body : list string) :
  body <> [] ->
  (forall l, In l body -> ends_description l = false) ->
  returned_help (collected body) <> help_as_specified body.
Proof.
  intros Hne Hbody Heq.
  rewrite returned_help_collected in Heq by assumption.
  apply (f_equal String.length) in Heq.
  unfold help_as_specified in Heq. rewrite length_append in Heq.
  pose proof (length_rstrip_chars "." (lower (lstrip (join " " body)))) as Hle.
  simpl in Heq. lia.
Qed.

(* ------------------------------------------------------------------ *)
(** ** The help extractor: what it returns and when it raises *)

(** C1, at the entry of [image_path] in the docstring of [Build], the
    first call [Build.add_arguments] makes.  The entry is one description
    line, ended by the line of [base_image].  The specified help text is
    that line in lower case, without its indentation and without the
    period; the function returns it with the period kept and a space
    after it, because every collected line is followed by a space and
    [rstrip(".")] then finds no period at the end. *)
Theorem C1_image_path_help_keeps_period (repr : string -> string) :
  _extract_help_from_docstring repr "image_path" Build_doc =
    Return "path to the built container image. "
  /\ help_as_specified ["        Path to the built container image."] =
       "path to the built container image".
Proof. split; vm_compute; reflexivity. Qed.

(** C2, at a docstring whose last entry is the description of the
    requested parameter, with no line after it: the loop runs out of
    lines and its [else] clause raises [KeyError], although the parameter
    was found.  The same docstring followed by a blank line gives the
    description, so the end of the input does not act as a blank line. *)
Theorem C2_last_entry_raises_KeyError (repr : string -> string) :
  _extract_help_from_docstring repr "arg" last_entry_doc =
    Raise (Exn KeyError (missing_arg_message repr "arg"))
  /\ _extract_help_from_docstring repr "arg" (last_entry_doc ++ LF ++ LF) =
       Return "the name of the argument. ".
Proof. split; vm_compute; reflexivity. Qed.

(** C3: when no line of the docstring contains the literal ["<name> : "],
    the extractor raises a [KeyError], which is a [LookupError], whose
    message names the parameter; it returns no value. *)
Theorem C3_missing_parameter_raises_KeyError
    (repr : string -> string) (arg docstring : string) :
  (forall line, In line (splitlines docstring) ->
                ~ Occurs (arg ++ " : ") line) ->
  exists e,
    _extract_help_from_docstring repr arg docstring = Raise e
    /\ exn_class e = KeyError
    /\ is_LookupError e = true
    /\ exn_msg e = "The docstring does not include arg=" ++ repr arg
    /\ forall v, _extract_help_from_docstring repr arg docstring <> Return v.
Proof.
  intros Hnone.
  assert (Hloop : for_loop arg (Locals false []) (splitlines docstring) = None).
  { rewrite <- (app_nil_r (splitlines docstring)).
    rewrite for_loop_skip by exact Hnone. reflexivity. }
  exists (Exn KeyError (missing_arg_message repr arg)).
  unfold _extract_help_from_docstring. rewrite Hloop.
  repeat split. intros v H; discriminate H.
Qed.

(** C3 at the docstring of [Build] and a name it has no entry for. *)
Lemma C3_witness :
  exists e,
    _extract_help_from_docstring repr_plain "sandbox" Build_doc = Raise e
    /\ exn_class e = KeyError
    /\ is_LookupError e = true
    /\ exn_msg e = "The docstring does not include arg=" ++ repr_plain "sandbox"
    /\ forall v,
         _extract_help_from_docstring repr_plain "sandbox" Build_doc <> Return v.
Proof.
  apply (C3_missing_parameter_raises_KeyError repr_plain "sandbox" Build_doc).
  intros line Hin. apply str_in_not_Occurs.
  assert (H : forallb (fun l => negb (str_in ("sandbox" ++ " : ") l))
                      (splitlines Build_doc) = true)
    by (vm_compute; reflexivity).
  rewrite forallb_forall in H. apply H in Hin.
  apply negb_true_iff in Hin. exact Hin.
Defined.

(** One pass of the loop while it looks for the parameter: the line sets
    [arg_found] if the literal ["<name> : "] is a substring of it, and
    leaves the locals as they were if it is not. *)
Lemma loop_body_start_iff
    (arg : string) (desc : list string) (line : string) :
  (loop_body arg (Locals false desc) line = Next (Locals true desc)
   <-> Occurs (arg ++ " : ") line)
  /\ (loop_body arg (Locals false desc) line = Next (Locals false desc)
      <-> ~ Occurs (arg ++ " : ") line).
Proof.
  rewrite loop_body_searching.
  destruct (str_in (arg ++ " : ") line) eqn:Hin.
  - apply str_in_Occurs in Hin.
    repeat split; intros H; try exact Hin; try discriminate H.
    contradiction.
  - apply str_in_not_Occurs in Hin.
    repeat split; intros H; try exact Hin; try discriminate H.
    contradiction.
Qed.

(* ------------------------------------------------------------------ *)
(** ** The subcommands *)

(** Case analysis on the next call made to the collaborators: the first
    call whose history mentions no pending call. *)
Ltac next_call w :=
  match goal with
  | |- context [w ?tr ?c] =>
      lazymatch tr with
      | context [w _ _] => fail
      | _ => destruct (w tr c) eqn:?; cbn -[append]
      end
  end.

(** The same in a world where every call returns. *)
Ltac next_return w Hall :=
  match goal with
  | |- context [w ?tr ?c] =>
      lazymatch tr with
      | context [w _ _] => fail
      | _ =>
          let E := fresh "E" in
          let X := fresh "X" in
          destruct (w tr c) eqn:E;
          [ cbn -[append]
          | exfalso; pose proof (Hall tr c) as X; rewrite E in X;
            discriminate X ]
      end
  end.

Ltac run_execute :=
  unfold trace_of, result_of, Build_execute, with_, bind, invoke, ret, raise;
  cbn -[append].

Ltac exit_result :=
  repeat match goal with
         | |- context [if ?suppress then _ else _] => destruct suppress
         end.

(** In every world, and with or without a Conda environment, the trace of
    [Build.execute] keeps the scope discipline: whatever raises, a sandbox
    that was entered is exited, once, after every other step. *)
Lemma Build_execute_scoped (w : world) (self : Build) :
  scoped (trace_of (Build_execute w self)) = true.
Proof.
  run_execute.
  destruct (conda_env self) as [env|]; cbn -[append];
    repeat (next_call w); exit_result; reflexivity.
Qed.

(** The calls of [Build.execute] with a Conda environment when no call
    raises, and its result. *)
Lemma Build_execute_conda_calls (w : world) (self : Build) (env : Path) :
  conda_env self = Some env ->
  all_return w ->
  result_of (Build_execute w self) = Return tt
  /\ exists dir script,
       calls (trace_of (Build_execute w self)) =
       [ Sandbox_new (base_image self);
         Sandbox_enter;
         CondaInstall_new dir;
         CondaInstall_run_command
           ("conda env create -f " ++ as_posix env
            ++ " -n conda_container_env");
         Sandbox_add_to_env script;
         Sandbox_add_to_env (VStr "conda activate conda_container_env");
         CondaInstall_cleanup_unused_files;
         Sandbox_build_image (image_path self);
         Sandbox_exit None ].
Proof.
  intros Henv Hall. run_execute. rewrite Henv. cbn -[append].
  repeat (next_return w Hall).
  split; [reflexivity|].
  eexists; eexists. rewrite !append_assoc. reflexivity.
Qed.

(** [__exit__] is called once when the sandbox was created, and not at
    all when [Sandbox(base_image)] or [__enter__] raised. *)
Lemma Build_execute_exit_count (w : world) (self : Build) :
  count_calls is_Sandbox_exit (trace_of (Build_execute w self)) =
  if sandbox_created w (base_image self) then 1 else 0.
Proof.
  unfold sandbox_created. run_execute.
  destruct (conda_env self) as [env|]; cbn -[append];
    repeat (next_call w); exit_result; reflexivity.
Qed.

Lemma quiet_world_all_return : all_return quiet_world.
Proof. intros tr c; destruct c; reflexivity. Qed.

(** A run in which the install step raises: the later steps are not
    made, the sandbox is exited with the exception, which goes on. *)
Example Build_execute_failing_install :
  calls (trace_of (Build_execute failing_install_world example_build)) =
    [ Sandbox_new (VStr "docker://ubuntu:22.04");
      Sandbox_enter;
      CondaInstall_new (VStr "/tmp/sandbox");
      CondaInstall_run_command
        "conda env create -f /home/user/env.yml -n conda_container_env";
      Sandbox_exit
        (Some (Exn (OtherError "CalledProcessError") "conda failed")) ]
  /\ result_of (Build_execute failing_install_world example_build) =
       Raise (Exn (OtherError "CalledProcessError") "conda failed").
Proof. split; reflexivity. Qed.

(** The same with the arguments of the installer and of the first
    [add_to_env] told: the installer is made for the [sandbox_dir] of the
    sandbox that [__enter__] returned, and the first line added to the
    environment is the [conda_runtime_bootstrap_script] of that
    installer. *)
Lemma Build_execute_conda_calls_told
    (w : world) (self : Build) (env : Path) :
  conda_env self = Some env ->
  all_return w ->
  exists (sb : sandbox) (ci : conda_install),
    w [Event (Sandbox_new (base_image self)) true] Sandbox_enter = Return sb
    /\ w [Event (Sandbox_new (base_image self)) true;
          Event Sandbox_enter true]
         (CondaInstall_new (sandbox_dir sb)) = Return ci
    /\ calls (trace_of (Build_execute w self)) =
       [ Sandbox_new (base_image self);
         Sandbox_enter;
         CondaInstall_new (sandbox_dir sb);
         CondaInstall_run_command
           ("conda env create -f " ++ as_posix env
            ++ " -n conda_container_env");
         Sandbox_add_to_env (conda_runtime_bootstrap_script ci);
         Sandbox_add_to_env (VStr "conda activate conda_container_env");
         CondaInstall_cleanup_unused_files;
         Sandbox_build_image (image_path self);
         Sandbox_exit None ].
Proof.
  intros Henv Hall.
  pose proof (Hall [Event (Sandbox_new (base_image self)) true]
                   Sandbox_enter) as Xenter.
  destruct (w [Event (Sandbox_new (base_image self)) true] Sandbox_enter)
    as [sb|e] eqn:Henter; [clear Xenter | discriminate Xenter].
  pose proof (Hall [Event (Sandbox_new (base_image self)) true;
                    Event Sandbox_enter true]
                   (CondaInstall_new (sandbox_dir sb))) as Xnew.
  destruct (w [Event (Sandbox_new (base_image self)) true;
               Event Sandbox_enter true]
              (CondaInstall_new (sandbox_dir sb))) as [ci|e] eqn:Hnew;
    [clear Xnew | discriminate Xnew].
  exists sb, ci. split; [reflexivity|]. split; [exact Hnew|].
  run_execute. rewrite Henv. cbn -[append].
  next_return w Hall.
  rewrite Henter. cbn -[append]. rewrite Hnew. cbn -[append].
  repeat (next_return w Hall).
  rewrite !append_assoc. reflexivity.
Qed.

(** C4: with a Conda environment, [Build.execute] calls, in this order
    when no call raises: [Sandbox(base_image)] and its [__enter__]; the
    installer's constructor, on the [sandbox_dir] of the sandbox entered;
    one [run_command] with
    ["conda env create -f <path> -n conda_container_env"]; [add_to_env]
    with the [conda_runtime_bootstrap_script] of that installer, and then
    with ["conda activate conda_container_env"]; one
    [cleanup_unused_files]; one [build_image(image_path)]; and
    [__exit__].  In every world, whichever call raises, the trace keeps
    the scope discipline, and [__exit__] is called exactly once if the
    sandbox was created (and there is no sandbox to release if its
    creation raised). *)
Theorem C4_build_with_conda_env (w : world) (self : Build) (env : Path) :
  conda_env self = Some env ->
  (all_return w ->
   result_of (Build_execute w self) = Return tt
   /\ exists (sb : sandbox) (ci : conda_install),
        w [Event (Sandbox_new (base_image self)) true] Sandbox_enter
          = Return sb
        /\ w [Event (Sandbox_new (base_image self)) true;
              Event Sandbox_enter true]
             (CondaInstall_new (sandbox_dir sb)) = Return ci
        /\ calls (trace_of (Build_execute w self)) =
           [ Sandbox_new (base_image self);
             Sandbox_enter;
             CondaInstall_new (sandbox_dir sb);
             CondaInstall_run_command
               ("conda env create -f " ++ as_posix env
                ++ " -n conda_container_env");
             Sandbox_add_to_env (conda_runtime_bootstrap_script ci);
             Sandbox_add_to_env (VStr "conda activate conda_container_env");
             CondaInstall_cleanup_unused_files;
             Sandbox_build_image (image_path self);
             Sandbox_exit None ])
  /\ scoped (trace_of (Build_execute w self)) = true
  /\ count_calls is_Sandbox_exit (trace_of (Build_execute w self)) =
     (if sandbox_created w (base_image self) then 1 else 0).
Proof.
  intros Henv. split; [|split].
  - intros Hall. split.
    + exact (proj1 (Build_execute_conda_calls w self env Henv Hall)).
    + exact (Build_execute_conda_calls_told w self env Henv Hall).
  - apply Build_execute_scoped.
  - apply Build_execute_exit_count.
Qed.

(** C4 at a build with an environment file, in a world where every call
    returns: the installer is made for [/tmp/sandbox], the directory of
    the sandbox of that world, and the first line added is the bootstrap
    script of its installer. *)
Lemma C4_witness :
  conda_env example_build = Some example_env
  /\ all_return quiet_world
  /\ result_of (Build_execute quiet_world example_build) = Return tt
  /\ calls (trace_of (Build_execute quiet_world example_build)) =
       [ Sandbox_new (VStr "docker://ubuntu:22.04");
         Sandbox_enter;
         CondaInstall_new (VStr "/tmp/sandbox");
         CondaInstall_run_command
           "conda env create -f /home/user/env.yml -n conda_container_env";
         Sandbox_add_to_env (VStr "source bootstrap.sh");
         Sandbox_add_to_env (VStr "conda activate conda_container_env");
         CondaInstall_cleanup_unused_files;
         Sandbox_build_image (MkPath Slash ["home"; "user"; "image.sif"]);
         Sandbox_exit None ]
  /\ scoped (trace_of (Build_execute quiet_world example_build)) = true.
Proof.
  destruct (C4_build_with_conda_env quiet_world example_build example_env
              eq_refl) as (Hcalls & Hscoped & _).
  destruct (Hcalls quiet_world_all_return)
    as (Hresult & sb & ci & Hsb & Hci & Hlist).
  split; [reflexivity|].
  split; [exact quiet_world_all_return|].
  split; [exact Hresult|].
  split; [|exact Hscoped].
  rewrite Hlist.
  injection Hsb as <-. injection Hci as <-. reflexivity.
Defined.

(** C5: without a Conda environment, [Build.execute] makes no install
    call, no [add_to_env] call and no cleanup call, in any world; it calls
    [Sandbox(base_image)] exactly once, and [build_image] exactly once in
    the sandbox it created (if creating the sandbox raises there is no
    sandbox to build from).  When no call raises, its calls are the
    creation of the sandbox, [build_image(image_path)] and the exit. *)
Theorem C5_build_without_conda_env (w : world) (self : Build) :
  conda_env self = None ->
  count_calls is_install (trace_of (Build_execute w self)) = 0
  /\ count_calls is_add_to_env (trace_of (Build_execute w self)) = 0
  /\ count_calls is_cleanup (trace_of (Build_execute w self)) = 0
  /\ count_calls is_Sandbox_new (trace_of (Build_execute w self)) = 1
  /\ count_calls is_build_image (trace_of (Build_execute w self)) =
     (if sandbox_created w (base_image self) then 1 else 0)
  /\ (all_return w ->
      calls (trace_of (Build_execute w self)) =
      [ Sandbox_new (base_image self);
        Sandbox_enter;
        Sandbox_build_image (image_path self);
        Sandbox_exit None ]).
Proof.
  intros Henv. unfold sandbox_created. run_execute. rewrite Henv.
  cbn -[append].
  repeat split;
    try (repeat (next_call w); exit_result; reflexivity).
  intros Hall. repeat (next_return w Hall). reflexivity.
Qed.

(** C5 at a build without an environment file. *)
Lemma C5_witness :
  conda_env example_build_plain = None
  /\ all_return quiet_world
  /\ count_calls is_install
       (trace_of (Build_execute quiet_world example_build_plain)) = 0
  /\ count_calls is_add_to_env
       (trace_of (Build_execute quiet_world example_build_plain)) = 0
  /\ count_calls is_cleanup
       (trace_of (Build_execute quiet_world example_build_plain)) = 0
  /\ count_calls is_Sandbox_new
       (trace_of (Build_execute quiet_world example_build_plain)) = 1
  /\ count_calls is_build_image
       (trace_of (Build_execute quiet_world example_build_plain)) = 1
  /\ calls (trace_of (Build_execute quiet_world example_build_plain)) =
       [ Sandbox_new (base_image example_build_plain);
         Sandbox_enter;
         Sandbox_build_image (image_path example_build_plain);
         Sandbox_exit None ].
Proof.
  destruct (C5_build_without_conda_env quiet_world example_build_plain
              eq_refl) as (H1 & H2 & H3 & H4 & H5 & H6).
  split; [reflexivity|].
  split; [exact quiet_world_all_return|].
  split; [exact H1|]. split; [exact H2|]. split; [exact H3|].
  split; [exact H4|]. split; [exact H5|].
  exact (H6 quiet_world_all_return).
Defined.

(** C6: the constructor stores [image_path] and a supplied [conda_env]
    made absolute (a relative path is joined to the working directory, an
    absolute one is kept), stores [None] for a [conda_env] that is not
    supplied, and stores [base_image] as it is, whatever it is. *)
Theorem C6_build_stores_absolute_paths
    (cwd image_path conda_env : Path) (base_image : value) :
  is_absolute cwd = true ->
  Build_init cwd (VPath image_path) base_image (VPath conda_env) =
    Return (MkBuild (absolute cwd image_path) base_image
                    (Some (absolute cwd conda_env)))
  /\ Build_init cwd (VPath image_path) base_image VNone =
       Return (MkBuild (absolute cwd image_path) base_image None)
  /\ is_absolute (absolute cwd image_path) = true
  /\ is_absolute (absolute cwd conda_env) = true
  /\ (is_absolute image_path = false ->
      absolute cwd image_path =
      MkPath (path_root cwd) (path_parts cwd ++ path_parts image_path)).
Proof.
  intros Hcwd.
  assert (Habs : forall p, is_absolute (absolute cwd p) = true).
  { intros p. unfold absolute.
    destruct (is_absolute p) eqn:Hp; [exact Hp|].
    unfold is_absolute in *; simpl. exact Hcwd. }
  repeat split; try apply Habs.
  intros Hrel. unfold absolute. now rewrite Hrel.
Qed.

(** C6 at two relative paths, under [/home/user]. *)
Lemma C6_witness :
  is_absolute example_cwd = true
  /\ Build_init example_cwd (VPath (MkPath NoRoot ["image.sif"]))
       (VStr "docker://ubuntu:22.04") (VPath (MkPath NoRoot ["env.yml"])) =
     Return (MkBuild (MkPath Slash ["home"; "user"; "image.sif"])
                     (VStr "docker://ubuntu:22.04")
                     (Some (MkPath Slash ["home"; "user"; "env.yml"])))
  /\ Build_init example_cwd (VPath (MkPath NoRoot ["image.sif"]))
       (VStr "docker://ubuntu:22.04") VNone =
     Return (MkBuild (MkPath Slash ["home"; "user"; "image.sif"])
                     (VStr "docker://ubuntu:22.04") None).
Proof.
  destruct (C6_build_stores_absolute_paths example_cwd
              (MkPath NoRoot ["image.sif"]) (MkPath NoRoot ["env.yml"])
              (VStr "docker://ubuntu:22.04") eq_refl)
    as (Hboth & Hnone & _).
  split; [reflexivity|].
  split; [exact Hboth | exact Hnone].
Defined.

(** C7: [Info().execute()] writes the one line
    ["Sorry, no information about your system is available at this time."]
    to the standard output, calls no collaborator and returns. *)
Theorem C7_info_prints_one_line (s : state) :
  Info_execute s =
  (State (trace s)
         (stdout s
          ++ "Sorry, no information about your system is available at this time."
          ++ LF),
   Return tt).
Proof. reflexivity. Qed.

(** C10: [Build] constructed with [image_path] left at its default [None]
    raises [AttributeError], whatever the other arguments are, because
    [image_path.absolute()] is called first; and whenever the constructor
    returns, [image_path] was a path. *)
Theorem C10_build_requires_image_path (cwd : Path) :
  (forall base_image conda_env,
     Build_init cwd VNone base_image conda_env =
     Raise (Exn AttributeError "'NoneType' object has no attribute 'absolute'"))
  /\ (forall image_path base_image conda_env self,
        Build_init cwd image_path base_image conda_env = Return self ->
        exists p, image_path = VPath p).
Proof.
  split.
  - intros base_image conda_env. reflexivity.
  - intros image_path base_image conda_env self.
    destruct image_path; simpl; intros H; try discriminate H.
    eexists; reflexivity.
Qed.

(** C10 at the default [None], and at a path that is accepted. *)
Lemma C10_witness :
  Build_init example_cwd VNone (VStr "docker://ubuntu:22.04") VNone =
    Raise (Exn AttributeError "'NoneType' object has no attribute 'absolute'")
  /\ exists p, VPath (MkPath NoRoot ["image.sif"]) = VPath p.
Proof.
  destruct (C10_build_requires_image_path example_cwd) as (Hnone & Hpath).
  split.
  - exact (Hnone (VStr "docker://ubuntu:22.04") VNone).
  - exact (Hpath (VPath (MkPath NoRoot ["image.sif"]))
                 (VStr "docker://ubuntu:22.04") VNone
                 (MkBuild (MkPath Slash ["home"; "user"; "image.sif"])
                          (VStr "docker://ubuntu:22.04") None)
                 eq_refl).
Defined.

(* ------------------------------------------------------------------ *)
(** ** The dispatcher *)

(** Building the parser never raises: every argument [Build] declares has
    its entry in the docstring of [Build]. *)
Lemma make_parser_returns (repr : string -> string) :
  make_parser repr = Return cli_parser.
Proof. vm_compute. reflexivity. Qed.

(** C8: with no subcommand token the namespace has no [subcommand_cls];
    the [AttributeError] of reading it is caught and the subcommand is a
    [NoSubcommand] object, whose [execute()] writes the help text of the
    top-level parser and returns; the process writes that help text and
    leaves with status 0, which is what it does on [--help].  What
    [argparse] does is assumed: on no token it returns the empty
    namespace, on [--help] it prints the help text of the parser and
    raises [SystemExit(0)]. *)
Theorem C8_no_subcommand_prints_help
    (repr : string -> string) (cwd : Path) (w : world)
    (parse_args : arg_parser -> list string -> parse_outcome)
    (format_help : arg_parser -> string) (parser : arg_parser) :
  make_parser repr = Return parser ->
  parse_args parser [] = Parsed [] ->
  parse_args parser ["--help"] = Exits (format_help parser) 0 ->
  BuilderCLI_init repr cwd parse_args [] (State [] "") =
    (State [] "", Return (MkBuilderCLI [] (NoSubcommand_object parser)))
  /\ execute w format_help (NoSubcommand_object parser) (State [] "") =
       (State [] (format_help parser), Return tt)
  /\ run repr cwd w parse_args format_help [] = (format_help parser, 0%Z)
  /\ run repr cwd w parse_args format_help ["--help"] =
       run repr cwd w parse_args format_help [].
Proof.
  intros Hparser Hnone Hhelp.
  assert (Hinit : BuilderCLI_init repr cwd parse_args [] (State [] "") =
                  (State [] "",
                   Return (MkBuilderCLI [] (NoSubcommand_object parser)))).
  { unfold BuilderCLI_init, bind, lift, run_parse_args.
    rewrite Hparser, Hnone. reflexivity. }
  assert (Hrun : run repr cwd w parse_args format_help [] =
                 (format_help parser, 0%Z)).
  { unfold run, main, bind. rewrite Hinit. reflexivity. }
  repeat split.
  - exact Hinit.
  - exact Hrun.
  - rewrite Hrun.
    unfold run, main, BuilderCLI_init, bind, lift, run_parse_args.
    rewrite Hparser, Hhelp. reflexivity.
Qed.

(** C8 at the parser of the module and an instance of [argparse]. *)
Lemma C8_witness :
  make_parser repr_plain = Return cli_parser
  /\ parse_args_model cli_parser [] = Parsed []
  /\ parse_args_model cli_parser ["--help"] =
       Exits (format_help_model cli_parser) 0
  /\ run repr_plain example_cwd quiet_world parse_args_model
         format_help_model [] = (format_help_model cli_parser, 0%Z)
  /\ run repr_plain example_cwd quiet_world parse_args_model
         format_help_model ["--help"] =
       run repr_plain example_cwd quiet_world parse_args_model
         format_help_model [].
Proof.
  destruct (C8_no_subcommand_prints_help repr_plain example_cwd quiet_world
              parse_args_model format_help_model cli_parser
              (make_parser_returns repr_plain) eq_refl eq_refl)
    as (_ & _ & Hrun & Hsame).
  split; [exact (make_parser_returns repr_plain)|].
  split; [reflexivity|].
  split; [reflexivity|].
  split; [exact Hrun | exact Hsame].
Defined.

(* ------------------------------------------------------------------ *)
(** ** The help extractor: when it returns, and what *)

(** While describing, the loop returns exactly at the first line that
    ends the description, with the lines before it collected. *)
Lemma for_loop_describing_returns (arg : string) (lines : list string) :
  forall (desc : list string) (v : string),
  for_loop arg (Locals true desc) lines = Some v ->
  exists body stop post,
    lines = (body ++ stop :: post)%list
    /\ (forall l, In l body -> ends_description l = false)
    /\ ends_description stop = true
    /\ v = returned_help (desc ++ collected body).
Proof.
  induction lines as [|line lines IH]; intros desc v H; [discriminate H|].
  simpl in H. rewrite loop_body_describing in H.
  destruct (ends_description line) eqn:Hline.
  - injection H as <-.
    exists [], line, lines. rewrite app_nil_r.
    repeat split; try assumption. intros l [].
  - destruct (IH _ _ H) as (body & stop & post & -> & Hbody & Hstop & ->).
    exists (line :: body), stop, post.
    repeat split; try assumption.
    + intros l [<- | Hl]; [exact Hline | now apply Hbody].
    + now rewrite <- app_assoc.
Qed.

(** While searching, the loop can only return after a line with the
    pattern. *)
Lemma for_loop_searching_returns (arg : string) (lines : list string) :
  forall (desc : list string) (v : string),
  for_loop arg (Locals false desc) lines = Some v ->
  exists pre start rest,
    lines = (pre ++ start :: rest)%list
    /\ (forall l, In l pre -> ~ Occurs (arg ++ " : ") l)
    /\ Occurs (arg ++ " : ") start
    /\ for_loop arg (Locals true desc) rest = Some v.
Proof.
  induction lines as [|line lines IH]; intros desc v H; [discriminate H|].
  simpl in H. rewrite loop_body_searching in H.
  destruct (str_in (arg ++ " : ") line) eqn:Hline.
  - exists [], line, lines. repeat split; try assumption.
    + intros l [].
    + now apply str_in_Occurs.
  - destruct (IH _ _ H) as (pre & start & rest & -> & Hpre & Hstart & Hrest).
    exists (line :: pre), start, rest. repeat split; try assumption.
    intros l [<- | Hl]; [now apply str_in_not_Occurs | now apply Hpre].
Qed.

(** X1: the extractor returns [v] exactly when the lines of the docstring
    are: lines without ["<name> : "], a line with it, description lines
    (not blank, without [" : "]), a line that is blank or has [" : "], and
    anything after; and [v] is then the return expression applied to the
    description lines, each followed by a space.  What precedes the entry
    and what follows its last line play no part. *)
Theorem X1_extract_returns_iff
    (repr : string -> string) (arg docstring v : string) :
  _extract_help_from_docstring repr arg docstring = Return v
  <->
  exists pre start body stop post,
    splitlines docstring = (pre ++ start :: body ++ stop :: post)%list
    /\ (forall l, In l pre -> ~ Occurs (arg ++ " : ") l)
    /\ Occurs (arg ++ " : ") start
    /\ (forall l, In l body -> ends_description l = false)
    /\ ends_description stop = true
    /\ v = returned_help (collected body).
Proof.
  split.
  - unfold _extract_help_from_docstring.
    destruct (for_loop arg (Locals false []) (splitlines docstring))
      as [v'|] eqn:Hloop; [|discriminate].
    intros H; injection H as ->.
    apply for_loop_searching_returns in Hloop
      as (pre & start & rest & Hlines & Hpre & Hstart & Hrest).
    apply for_loop_describing_returns in Hrest
      as (body & stop & post & -> & Hbody & Hstop & ->).
    exists pre, start, body, stop, post. repeat split; assumption.
  - intros (pre & start & body & stop & post
            & Hlines & Hpre & Hstart & Hbody & Hstop & ->).
    exact (extract_terminated repr arg docstring pre start body stop post
             Hlines Hpre Hstart Hbody Hstop).
Qed.

(** X2: on an entry with at least one description line, ended by a line,
    the extractor returns the description lines joined by single spaces,
    without the leading white space and in lower case, followed by one
    space; a period at the end of the description stays. *)
Theorem X2_extract_description
    (repr : string -> string) (arg docstring : string)
    (pre : list string) (start : string) (body : list string)
    (stop : string) (post : list string) :
  splitlines docstring = (pre ++ start :: body ++ stop :: post)%list ->
  (forall l, In l pre -> ~ Occurs (arg ++ " : ") l) ->
  Occurs (arg ++ " : ") start ->
  (forall l, In l body -> ends_description l = false) ->
  ends_description stop = true ->
  body <> [] ->
  _extract_help_from_docstring repr arg docstring =
  Return (lower (lstrip (join " " body)) ++ " ").
Proof.
  intros Hlines Hpre Hstart Hbody Hstop Hne.
  rewrite (extract_terminated repr arg docstring pre start body stop post
             Hlines Hpre Hstart Hbody Hstop).
  now rewrite returned_help_collected.
Qed.

(** Deciding the hypotheses of the two statements on given lines. *)
Lemma no_match_by_computation (arg : string) (pre : list string) :
  forallb (fun l => negb (str_in (arg ++ " : ") l)) pre = true ->
  forall l, In l pre -> ~ Occurs (arg ++ " : ") l.
Proof.
  intros H l Hl. rewrite forallb_forall in H.
  apply str_in_not_Occurs, negb_true_iff, H, Hl.
Qed.

Lemma description_by_computation (body : list string) :
  forallb (fun l => negb (ends_description l)) body = true ->
  forall l, In l body -> ends_description l = false.
Proof.
  intros H l Hl. rewrite forallb_forall in H.
  apply negb_true_iff, H, Hl.
Qed.

(** X2 at the entry of [base_image] in the docstring of [Build]. *)
Lemma X2_witness :
  _extract_help_from_docstring repr_plain "base_image" Build_doc =
  Return
    ("base image to use for the container which may be any valid"
     ++ "         apptainer/singularity <build spec>. ").
Proof.
  apply (X2_extract_description repr_plain "base_image" Build_doc
           (firstn 9 (splitlines Build_doc))
           "    base_image : str"
           [ "        Base image to use for the container which may be any valid";
             "        Apptainer/Singularity <BUILD SPEC>." ]
           "    conda_env : pathlike, optional"
           (skipn 13 (splitlines Build_doc))).
  - vm_compute. reflexivity.
  - apply no_match_by_computation. vm_compute. reflexivity.
  - apply str_in_Occurs. vm_compute. reflexivity.
  - apply description_by_computation. vm_compute. reflexivity.
  - vm_compute. reflexivity.
  - discriminate.
Defined.

(** X3: an entry with no description line (the line after the name ends
    it) gives the empty string, not an error. *)
Theorem X3_extract_empty_description
    (repr : string -> string) (arg docstring : string)
    (pre : list string) (start stop : string) (post : list string) :
  splitlines docstring = (pre ++ start :: stop :: post)%list ->
  (forall l, In l pre -> ~ Occurs (arg ++ " : ") l) ->
  Occurs (arg ++ " : ") start ->
  ends_description stop = true ->
  _extract_help_from_docstring repr arg docstring = Return "".
Proof.
  intros Hlines Hpre Hstart Hstop.
  exact (extract_terminated repr arg docstring pre start [] stop post
           Hlines Hpre Hstart (fun l (H : In l []) => match H with end) Hstop).
Qed.

(** X3 at two entries that follow each other with nothing between. *)
Lemma X3_witness :
  _extract_help_from_docstring repr_plain "a"
    (join LF ["a : int"; "b : int"; "    The second."; ""]) = Return "".
Proof.
  apply (X3_extract_empty_description repr_plain "a"
           (join LF ["a : int"; "b : int"; "    The second."; ""])
           [] "a : int" "b : int" ["    The second."]).
  - vm_compute. reflexivity.
  - intros l [].
  - apply str_in_Occurs. vm_compute. reflexivity.
  - vm_compute. reflexivity.
Defined.

(* ------------------------------------------------------------------ *)
(** ** The help extractor: the form of what it returns *)

Lemma lower_char_idempotent (c : ascii) :
  lower_char (lower_char c) = lower_char c.
Proof. destruct c as [[] [] [] [] [] [] [] []]; vm_compute; reflexivity. Qed.

Lemma is_space_lower_char (c : ascii) : is_space (lower_char c) = is_space c.
Proof. destruct c as [[] [] [] [] [] [] [] []]; vm_compute; reflexivity. Qed.

Lemma lower_idempotent (s : string) : lower (lower s) = lower s.
Proof.
  induction s as [|c s IH]; simpl; [reflexivity|].
  now rewrite lower_char_idempotent, IH.
Qed.

Lemma length_lstrip (s : string) : String.length (lstrip s) <= String.length s.
Proof.
  induction s as [|c s IH]; simpl; [lia|].
  destruct (is_space c); simpl; lia.
Qed.

(** The strings [lstrip] leaves as they are: the empty one and those
    whose first character is no white space. *)
Lemma lstrip_fixed_iff (s : string) :
  lstrip s = s <->
  match s with
  | EmptyString => True
  | String c _ => is_space c = false
  end.
Proof.
  destruct s as [|c s]; simpl; [tauto|].
  destruct (is_space c) eqn:Hc; split; intros H;
    try reflexivity; try discriminate H.
  pose proof (length_lstrip s) as Hlen. rewrite H in Hlen. simpl in Hlen. lia.
Qed.

Lemma lstrip_idempotent (s : string) : lstrip (lstrip s) = lstrip s.
Proof.
  induction s as [|c s IH]; simpl; [reflexivity|].
  destruct (is_space c) eqn:Hc; [exact IH|].
  simpl. now rewrite Hc.
Qed.

Lemma lstrip_lower_fixed (s : string) :
  lstrip s = s -> lstrip (lower s) = lower s.
Proof.
  rewrite !lstrip_fixed_iff. destruct s as [|c s]; simpl; [tauto|].
  now rewrite is_space_lower_char.
Qed.

Lemma rstrip_chars_first (chars : string) (c : ascii) (s : string) :
  rstrip_chars chars (String c s) = ""
  \/ exists r, rstrip_chars chars (String c s) = String c r.
Proof.
  simpl. destruct (rstrip_chars chars s) as [|d r].
  - destruct (char_in c chars); [left; reflexivity|].
    right; exists ""; reflexivity.
  - right; exists (String d r); reflexivity.
Qed.

Lemma lstrip_rstrip_chars_fixed (chars s : string) :
  lstrip s = s -> lstrip (rstrip_chars chars s) = rstrip_chars chars s.
Proof.
  rewrite !lstrip_fixed_iff. destruct s as [|c s]; [simpl; tauto|].
  intros Hc. destruct (rstrip_chars_first chars c s) as [-> | [r ->]];
    [exact I | exact Hc].
Qed.

Lemma lower_rstrip_chars_fixed (chars s : string) :
  lower s = s -> lower (rstrip_chars chars s) = rstrip_chars chars s.
Proof.
  induction s as [|c s IH]; simpl; [reflexivity|].
  intros H. injection H as Hc Hs. specialize (IH Hs).
  destruct (rstrip_chars chars s) as [|d r].
  - destruct (char_in c chars); simpl; [reflexivity | now rewrite Hc].
  - cbn [lower] in *. now rewrite Hc, IH.
Qed.

Lemma rstrip_chars_idempotent (chars s : string) :
  rstrip_chars chars (rstrip_chars chars s) = rstrip_chars chars s.
Proof.
  induction s as [|c s IH]; simpl; [reflexivity|].
  destruct (rstrip_chars chars s) as [|d r] eqn:Hr.
  - destruct (char_in c chars) eqn:Hc; simpl; [reflexivity | now rewrite Hc].
  - cbn [rstrip_chars] in *. now rewrite IH.
Qed.

Lemma returned_help_normal_form (desc : list string) :
  lstrip (returned_help desc) = returned_help desc
  /\ lower (returned_help desc) = returned_help desc
  /\ rstrip_chars "." (returned_help desc) = returned_help desc.
Proof.
  unfold returned_help. repeat split.
  - apply lstrip_rstrip_chars_fixed, lstrip_lower_fixed, lstrip_idempotent.
  - apply lower_rstrip_chars_fixed, lower_idempotent.
  - apply rstrip_chars_idempotent.
Qed.

(** X4: whatever the extractor returns starts with no white space, has no
    capital letter left ([lower] leaves it as it is) and does not end
    with a period ([rstrip(".")] leaves it as it is). *)
Theorem X4_returned_help_normal_form
    (repr : string -> string) (arg docstring v : string) :
  _extract_help_from_docstring repr arg docstring = Return v ->
  lstrip v = v /\ lower v = v /\ rstrip_chars "." v = v.
Proof.
  unfold _extract_help_from_docstring.
  destruct (for_loop arg (Locals false []) (splitlines docstring))
    as [v'|] eqn:Hloop; [|discriminate].
  intros H; injection H as ->.
  apply for_loop_searching_returns in Hloop as (_ & _ & rest & _ & _ & _ & Hrest).
  apply for_loop_describing_returns in Hrest as (body & _ & _ & _ & _ & _ & ->).
  apply returned_help_normal_form.
Qed.

(** X4 at the entry of [conda_env] in the docstring of [Build]. *)
Lemma X4_witness :
  let v := "path to a conda environment.yml file to install and activate in the"
           ++ "         container. " in
  _extract_help_from_docstring repr_plain "conda_env" Build_doc = Return v
  /\ lstrip v = v /\ lower v = v /\ rstrip_chars "." v = v.
Proof.
  assert (H : _extract_help_from_docstring repr_plain "conda_env" Build_doc =
              Return ("path to a conda environment.yml file to install and activate in the"
                      ++ "         container. "))
    by (vm_compute; reflexivity).
  split; [exact H|].
  exact (X4_returned_help_normal_form repr_plain "conda_env" Build_doc _ H).
Defined.

(* ------------------------------------------------------------------ *)
(** ** The help extractor: names that end another name *)

Lemma Occurs_suffix_name (before arg line : string) :
  Occurs ((before ++ arg) ++ " : ") line -> Occurs (arg ++ " : ") line.
Proof.
  intros (pre & post & ->). exists (pre ++ before), post.
  now rewrite !append_assoc.
Qed.

Lemma Occurs_name_ends_description (arg line : string) :
  Occurs (arg ++ " : ") line -> ends_description line = true.
Proof.
  intros (pre & post & ->). unfold ends_description.
  apply orb_true_iff; left. apply str_in_Occurs.
  exists (pre ++ arg), post. now rewrite !append_assoc.
Qed.

Lemma for_loop_describing_total (arg : string) (lines : list string) :
  forall desc,
  existsb ends_description lines = true ->
  exists v, for_loop arg (Locals true desc) lines = Some v.
Proof.
  induction lines as [|line lines IH]; intros desc H; [discriminate H|].
  simpl in *. rewrite loop_body_describing.
  destruct (ends_description line); [eexists; reflexivity|].
  now apply IH.
Qed.

Lemma for_loop_returns_has_end (arg : string) (lines : list string) :
  forall st v,
  for_loop arg st lines = Some v -> existsb ends_description lines = true.
Proof.
  induction lines as [|line lines IH]; intros [found desc] v H;
    [discriminate H|].
  simpl in *. destruct found.
  - rewrite loop_body_describing in H.
    destruct (ends_description line); [reflexivity|].
    exact (IH _ _ H).
  - rewrite loop_body_searching in H.
    destruct (str_in (arg ++ " : ") line) eqn:Hline.
    + apply str_in_Occurs, Occurs_name_ends_description in Hline.
      now rewrite Hline.
    + rewrite (IH _ _ H). apply orb_true_r.
Qed.

Lemma for_loop_suffix_name (before arg : string) (lines : list string) :
  forall desc desc' v,
  for_loop (before ++ arg) (Locals false desc) lines = Some v ->
  exists v', for_loop arg (Locals false desc') lines = Some v'.
Proof.
  induction lines as [|line lines IH]; intros desc desc' v H;
    [discriminate H|].
  simpl in *. rewrite loop_body_searching in *.
  destruct (str_in (arg ++ " : ") line) eqn:Harg.
  - apply for_loop_describing_total.
    destruct (str_in ((before ++ arg) ++ " : ") line);
      exact (for_loop_returns_has_end _ _ _ _ H).
  - assert (Hlong : str_in ((before ++ arg) ++ " : ") line = false).
    { apply str_in_not_Occurs. intros Hocc.
      apply Occurs_suffix_name, str_in_Occurs in Hocc. congruence. }
    rewrite Hlong in H. exact (IH _ _ _ H).
Qed.

(** X5: the name is matched as a substring, so a name that is the end of
    a documented name is found as well: whenever the extractor returns a
    help text for [before ++ arg], it returns one for [arg] too, and does
    not raise [KeyError]. *)
Theorem X5_name_ending_another_is_found
    (repr : string -> string) (before arg docstring v : string) :
  _extract_help_from_docstring repr (before ++ arg) docstring = Return v ->
  exists v', _extract_help_from_docstring repr arg docstring = Return v'.
Proof.
  unfold _extract_help_from_docstring.
  destruct (for_loop (before ++ arg) (Locals false [])
                     (splitlines docstring)) as [v0|] eqn:Hloop;
    [|discriminate].
  intros _.
  destruct (for_loop_suffix_name before arg _ [] [] v0 Hloop) as [v' ->].
  exists v'; reflexivity.
Qed.

(** X5 at [image_path] and [path] in the docstring of [Build]. *)
Lemma X5_witness :
  _extract_help_from_docstring repr_plain ("image_" ++ "path") Build_doc =
    Return "path to the built container image. "
  /\ exists v',
       _extract_help_from_docstring repr_plain "path" Build_doc = Return v'.
Proof.
  assert (H : _extract_help_from_docstring repr_plain ("image_" ++ "path")
                Build_doc = Return "path to the built container image. ")
    by (vm_compute; reflexivity).
  split; [exact H|].
  exact (X5_name_ending_another_is_found repr_plain "image_" "path"
           Build_doc _ H).
Defined.

(* ------------------------------------------------------------------ *)
(** ** The help extractor: when it raises *)

Lemma for_loop_describing_exhausted (arg : string) (lines : list string) :
  forall desc,
  for_loop arg (Locals true desc) lines = None ->
  forall l, In l lines -> ends_description l = false.
Proof.
  induction lines as [|line lines IH]; intros desc H l Hl; [destruct Hl|].
  simpl in H. rewrite loop_body_describing in H.
  destruct (ends_description line) eqn:Hline; [discriminate H|].
  destruct Hl as [<- | Hl]; [exact Hline | exact (IH _ H l Hl)].
Qed.

Lemma for_loop_searching_exhausted (arg : string) (lines : list string) :
  forall desc,
  for_loop arg (Locals false desc) lines = None ->
  (forall l, In l lines -> ~ Occurs (arg ++ " : ") l)
  \/ exists pre start body,
       lines = (pre ++ start :: body)%list
       /\ (forall l, In l pre -> ~ Occurs (arg ++ " : ") l)
       /\ Occurs (arg ++ " : ") start
       /\ (forall l, In l body -> ends_description l = false).
Proof.
  induction lines as [|line lines IH]; intros desc H.
  - left; intros l [].
  - simpl in H. rewrite loop_body_searching in H.
    destruct (str_in (arg ++ " : ") line) eqn:Hline.
    + right. exists [], line, lines. repeat split.
      * intros l [].
      * now apply str_in_Occurs.
      * exact (for_loop_describing_exhausted _ _ _ H).
    + apply str_in_not_Occurs in Hline.
      destruct (IH _ H) as [Hnone | (pre & start & body & -> & Hpre & Hs & Hb)].
      * left. intros l [<- | Hl]; [exact Hline | now apply Hnone].
      * right. exists (line :: pre), start, body. repeat split; try assumption.
        intros l [<- | Hl]; [exact Hline | now apply Hpre].
Qed.

(** X6: the extractor raises exactly in two cases, and then the
    [KeyError] that says the name is missing: no line has
    ["<name> : "]; or a line has it and no later line is blank or has
    [" : "], so that the description runs to the end of the docstring. *)
Theorem X6_extract_raises_iff
    (repr : string -> string) (arg docstring : string) (e : exn) :
  _extract_help_from_docstring repr arg docstring = Raise e
  <->
  e = Exn KeyError ("The docstring does not include arg=" ++ repr arg)
  /\ ((forall l, In l (splitlines docstring) -> ~ Occurs (arg ++ " : ") l)
      \/ exists pre start body,
           splitlines docstring = (pre ++ start :: body)%list
           /\ (forall l, In l pre -> ~ Occurs (arg ++ " : ") l)
           /\ Occurs (arg ++ " : ") start
           /\ (forall l, In l body -> ends_description l = false)).
Proof.
  split.
  - unfold _extract_help_from_docstring.
    destruct (for_loop arg (Locals false []) (splitlines docstring))
      eqn:Hloop; [discriminate|].
    intros H; injection H as <-. split; [reflexivity|].
    exact (for_loop_searching_exhausted _ _ _ Hloop).
  - intros [-> [Hnone | (pre & start & body & Hlines & Hpre & Hs & Hb)]].
    + unfold _extract_help_from_docstring.
      rewrite <- (app_nil_r (splitlines docstring)).
      rewrite for_loop_skip by exact Hnone. reflexivity.
    + exact (extract_unterminated repr arg docstring pre start body
               Hlines Hpre Hs Hb).
Qed.

(* ------------------------------------------------------------------ *)
(** ** The help extractor: which line starts the description *)



(* ------------------------------------------------------------------ *)
(** ** [Build]: the constructor *)

(** With a working directory that [os.getcwd()] returns at every call,
    the constructor is [Build_init] of that directory. *)
Lemma Build_init_os_returning
    (cwd : Path) (image_path base_image conda_env : value) :
  Build_init_os (fun _ => Return cwd) image_path base_image conda_env =
  Build_init cwd image_path base_image conda_env.
Proof.
  unfold Build_init_os, Build_init, call_absolute_os, call_absolute, absolute.
  destruct image_path as [| |p|]; try reflexivity.
  destruct (is_absolute p);
    (destruct conda_env as [| |q|]; try reflexivity;
     destruct (is_absolute q); reflexivity).
Qed.

(** X7: the constructor returns exactly when [image_path] is a path,
    [conda_env] is [None] or a path, and [os.getcwd()] returns each time
    it is asked, which is once for every path that is relative (an
    absolute path is stored without asking).  In every other case it
    raises: an [AttributeError] for a value that is no path, or what
    [os.getcwd()] raised, as when the working directory was removed.
    [base_image] is never looked at. *)
Theorem X7_Build_init_returns_iff
    (getcwd : nat -> result Path) (image_path base_image conda_env : value) :
  let asked :=
    match image_path with
    | VPath p => if is_absolute p then 0 else 1
    | _ => 0
    end in
  ((exists self,
      Build_init_os getcwd image_path base_image conda_env = Return self)
   <-> (exists p, image_path = VPath p
                  /\ (is_absolute p = true
                      \/ exists cwd, getcwd 0 = Return cwd))
       /\ (conda_env = VNone
           \/ exists q, conda_env = VPath q
                        /\ (is_absolute q = true
                            \/ exists cwd, getcwd asked = Return cwd)))
  /\ (forall e,
        Build_init_os getcwd image_path base_image conda_env = Raise e ->
        exn_class e = AttributeError \/ exists n, getcwd n = Raise e).
Proof.
  unfold Build_init_os, call_absolute_os.
  destruct image_path as [| |p|]; cbn zeta.
  1,2,4:
    (split; [split; [intros [self H]; discriminate H
                    | intros [(p & Hp & _) _]; discriminate Hp]
            | intros e H; injection H as <-; left; destruct conda_env;
              reflexivity]).
  destruct (is_absolute p) eqn:Hp.
  - destruct conda_env as [| |q|]; cbn.
    + split; [split|].
      * intros _. split; [exists p; auto | left; reflexivity].
      * intros _. eexists; reflexivity.
      * intros e H; discriminate H.
    + split; [split|].
      * intros [self H]; discriminate H.
      * intros [_ [H | (q & H & _)]]; discriminate H.
      * intros e H; injection H as <-; left; reflexivity.
    + destruct (is_absolute q) eqn:Hq.
      * split; [split|].
        -- intros _. split; [exists p; auto | right; exists q; auto].
        -- intros _. eexists; reflexivity.
        -- intros e H; discriminate H.
      * destruct (getcwd 0) as [cwd|e0] eqn:Hcwd.
        -- split; [split|].
           ++ intros _. split; [exists p; auto|].
              right; exists q; split; [reflexivity|]. right; exists cwd; reflexivity.
           ++ intros _. eexists; reflexivity.
           ++ intros e H; discriminate H.
        -- split; [split|].
           ++ intros [self H]; discriminate H.
           ++ intros [_ [H | (q' & H & [Habs | [cwd Hc]])]];
                [discriminate H | injection H as <-; congruence
                | discriminate Hc].
           ++ intros e H; injection H as <-. right; exists 0; exact Hcwd.
    + split; [split|].
      * intros [self H]; discriminate H.
      * intros [_ [H | (q & H & _)]]; discriminate H.
      * intros e H; injection H as <-; left; reflexivity.
  - destruct (getcwd 0) as [cwd|e0] eqn:Hcwd.
    + destruct conda_env as [| |q|]; cbn.
      * split; [split|].
        -- intros _. split; [exists p; split; [reflexivity|]; right; exists cwd;
                             reflexivity | left; reflexivity].
        -- intros _. eexists; reflexivity.
        -- intros e H; discriminate H.
      * split; [split|].
        -- intros [self H]; discriminate H.
        -- intros [_ [H | (q & H & _)]]; discriminate H.
        -- intros e H; injection H as <-; left; reflexivity.
      * destruct (is_absolute q) eqn:Hq.
        -- split; [split|].
           ++ intros _. split; [exists p; split; [reflexivity|]; right;
                                exists cwd; reflexivity
                               | right; exists q; auto].
           ++ intros _. eexists; reflexivity.
           ++ intros e H; discriminate H.
        -- destruct (getcwd 1) as [cwd1|e1] eqn:Hcwd1.
           ++ split; [split|].
              ** intros _. split; [exists p; split; [reflexivity|]; right;
                                   exists cwd; reflexivity|].
                 right; exists q; split; [reflexivity|]. right; exists cwd1;
                   reflexivity.
              ** intros _. eexists; reflexivity.
              ** intros e H; discriminate H.
           ++ split; [split|].
              ** intros [self H]; discriminate H.
              ** intros [_ [H | (q' & H & [Habs | [c Hc]])]];
                   [discriminate H | injection H as <-; congruence
                   | discriminate Hc].
              ** intros e H; injection H as <-. right; exists 1; exact Hcwd1.
      * split; [split|].
        -- intros [self H]; discriminate H.
        -- intros [_ [H | (q & H & _)]]; discriminate H.
        -- intros e H; injection H as <-; left; reflexivity.
    + split; [split|].
      * intros [self H]; discriminate H.
      * intros [(p' & H & [Habs | [c Hc]]) _];
          [injection H as <-; congruence | discriminate Hc].
      * intros e H; injection H as <-. right; exists 0; exact Hcwd.
Qed.

(** X7 in a process whose working directory was removed: a relative
    [image_path] raises what [os.getcwd()] raised, an absolute one is
    stored, and [None] raises the [AttributeError]. *)
Example Build_init_os_removed_cwd :
  let gone := Exn (OtherError "FileNotFoundError")
                  "[Errno 2] No such file or directory" in
  Build_init_os (fun _ => Raise gone) (VPath (MkPath NoRoot ["image.sif"]))
                (VStr "docker://ubuntu:22.04") VNone = Raise gone
  /\ Build_init_os (fun _ => Raise gone)
                   (VPath (MkPath Slash ["home"; "user"; "image.sif"]))
                   (VStr "docker://ubuntu:22.04") VNone =
     Return example_build_plain
  /\ Build_init_os (fun _ => Raise gone) VNone
                   (VStr "docker://ubuntu:22.04") VNone =
     Raise (Exn AttributeError "'NoneType' object has no attribute 'absolute'").
Proof. repeat split. Qed.

Lemma absolute_of_absolute (cwd p : Path) :
  is_absolute p = true -> absolute cwd p = p.
Proof. intros H. unfold absolute. now rewrite H. Qed.

Lemma absolute_is_absolute (cwd p : Path) :
  is_absolute cwd = true -> is_absolute (absolute cwd p) = true.
Proof.
  intros Hcwd. unfold absolute.
  destruct (is_absolute p) eqn:Hp; [exact Hp|].
  unfold is_absolute in *; simpl. exact Hcwd.
Qed.

(** X8: what the constructor stores does not depend on the working
    directory any more: constructing again from the stored fields, in any
    working directory, gives the same object. *)
Theorem X8_Build_init_again
    (cwd cwd' : Path) (image_path base_image conda_env : value)
    (self : Build) :
  is_absolute cwd = true ->
  Build_init cwd image_path base_image conda_env = Return self ->
  Build_init cwd' (VPath (Cli.image_path self)) (Cli.base_image self)
             (conda_env_argument (Cli.conda_env self)) = Return self.
Proof.
  intros Hcwd H.
  destruct image_path as [| |p|]; simpl in H; try discriminate H.
  destruct conda_env as [| |q|]; simpl in H; try discriminate H;
    injection H as <-; unfold Build_init, call_absolute; simpl.
  - rewrite (absolute_of_absolute cwd' (absolute cwd p))
      by (now apply absolute_is_absolute).
    reflexivity.
  - rewrite (absolute_of_absolute cwd' (absolute cwd p)),
            (absolute_of_absolute cwd' (absolute cwd q))
      by (now apply absolute_is_absolute).
    reflexivity.
Qed.

(** X8 at two relative paths: made under [/home/user], made again under
    [/]. *)
Lemma X8_witness :
  Build_init (MkPath Slash [])
    (VPath (MkPath Slash ["home"; "user"; "image.sif"]))
    (VStr "docker://ubuntu:22.04")
    (VPath (MkPath Slash ["home"; "user"; "env.yml"])) =
  Return (MkBuild (MkPath Slash ["home"; "user"; "image.sif"])
                  (VStr "docker://ubuntu:22.04")
                  (Some (MkPath Slash ["home"; "user"; "env.yml"]))).
Proof.
  exact (X8_Build_init_again example_cwd (MkPath Slash [])
           (VPath (MkPath NoRoot ["image.sif"]))
           (VStr "docker://ubuntu:22.04")
           (VPath (MkPath NoRoot ["env.yml"]))
           _ eq_refl eq_refl).
Defined.

(* ------------------------------------------------------------------ *)
(** ** [Build.execute]: failures *)

Lemma conda_command_eq (env : Path) :
  ("conda env create -f " ++ as_posix env ++ " ")
  ++ ("-n " ++ "conda_container_env") =
  "conda env create -f " ++ as_posix env ++ " -n conda_container_env".
Proof. now rewrite !append_assoc. Qed.

(** X9: in every world, a call that raises is the last step made: after
    it [Build.execute] only calls [__exit__], with the exception, when a
    sandbox is held, and nothing at all otherwise. *)
Theorem X9_Build_execute_fail_fast (w : world) (self : Build) :
  fail_fast (trace_of (Build_execute w self)) = true.
Proof.
  run_execute.
  destruct (conda_env self) as [env|]; cbn -[append];
    repeat (next_call w); exit_result; reflexivity.
Qed.

Ltac segment k :=
  first
    [ solve [ exists VNone, VNone, k; split; [lia|];
              first [ left; split; [lia | reflexivity]
                    | right; split; [lia|]; eexists; reflexivity ] ]
    | solve [ eexists; exists VNone, k; split; [lia|];
              first [ left; split; [lia | reflexivity]
                    | right; split; [lia|]; eexists; reflexivity ] ]
    | solve [ eexists; eexists; exists k; split; [lia|];
              first [ left; split; [lia | reflexivity]
                    | right; split; [lia|]; eexists; reflexivity ] ] ].

(** X10: with a Conda environment, in every world, the calls made are an
    initial segment of the steps in the order of the source (create,
    enter, installer, [run_command], the two [add_to_env], cleanup,
    [build_image]), followed by [__exit__] once the sandbox was entered:
    no step is skipped or made out of order, also when one raises. *)
Theorem X10_Build_execute_steps_in_order
    (w : world) (self : Build) (env : Path) :
  conda_env self = Some env ->
  exists dir script k,
    1 <= k <= 8
    /\ ((k <= 2
         /\ calls (trace_of (Build_execute w self)) =
            firstn k (conda_build_steps self env dir script))
        \/ (3 <= k
            /\ exists exc,
                 calls (trace_of (Build_execute w self)) =
                 (firstn k (conda_build_steps self env dir script)
                  ++ [Sandbox_exit exc])%list)).
Proof.
  intros Henv. run_execute. rewrite Henv. cbn -[append].
  rewrite !conda_command_eq.
  repeat (next_call w); exit_result;
    first [ segment 1 | segment 2 | segment 3 | segment 4
          | segment 5 | segment 6 | segment 7 | segment 8 ].
Qed.

(** X10 in the world where [run_command] raises: four steps, then the
    exit. *)
Lemma X10_witness :
  exists dir script k,
    1 <= k <= 8
    /\ ((k <= 2
         /\ calls (trace_of (Build_execute failing_install_world example_build)) =
            firstn k (conda_build_steps example_build example_env dir script))
        \/ (3 <= k
            /\ exists exc,
                 calls (trace_of (Build_execute failing_install_world
                                    example_build)) =
                 (firstn k (conda_build_steps example_build example_env
                              dir script)
                  ++ [Sandbox_exit exc])%list)).
Proof.
  exact (X10_Build_execute_steps_in_order failing_install_world example_build
           example_env eq_refl).
Defined.

(** X11: [Build.execute] raises nothing of its own: an exception it
    raises is one that a call to the collaborators raised, and that call
    is in the trace. *)
Theorem X11_Build_execute_raises_from_calls
    (w : world) (self : Build) (e : exn) :
  result_of (Build_execute w self) = Raise e ->
  exists tr c,
    w tr c = Raise e
    /\ In (Event c false) (trace_of (Build_execute w self)).
Proof.
  run_execute.
  destruct (conda_env self) as [env|]; cbn -[append];
    repeat (next_call w); exit_result;
    intros H; try discriminate H; injection H as <-;
    eexists; eexists; (split; [eassumption|]);
    repeat (first [left; reflexivity | right]).
Qed.

(** X11 in the world where [run_command] raises. *)
Lemma X11_witness :
  exists tr c,
    failing_install_world tr c =
      Raise (Exn (OtherError "CalledProcessError") "conda failed")
    /\ In (Event c false)
          (trace_of (Build_execute failing_install_world example_build)).
Proof.
  exact (X11_Build_execute_raises_from_calls failing_install_world
           example_build _ eq_refl).
Defined.

(** X12: when [__exit__] returns true it suppresses the exception: if the
    sandbox was created and [__exit__] returns true whenever it is called,
    [Build.execute] returns normally whatever the steps in the sandbox
    did. *)
Theorem X12_Build_execute_exit_suppresses (w : world) (self : Build) :
  (forall tr exc, w tr (Sandbox_exit exc) = Return true) ->
  sandbox_created w (base_image self) = true ->
  result_of (Build_execute w self) = Return tt.
Proof.
  intros Hexit. unfold sandbox_created. run_execute.
  destruct (conda_env self) as [env|]; cbn -[append];
    repeat (next_call w); intros Hcreated; try discriminate Hcreated;
    match goal with
    | H : w ?tr (Sandbox_exit ?exc) = _ |- _ =>
        rewrite (Hexit tr exc) in H;
        first [discriminate H | injection H as <-]
    end;
    reflexivity.
Qed.

Lemma X12_witness :
  result_of (Build_execute suppressing_world example_build) = Return tt
  /\ calls (trace_of (Build_execute suppressing_world example_build)) =
       (conda_build_steps example_build example_env (VStr "/tmp/sandbox")
          (VStr "source bootstrap.sh")
        ++ [Sandbox_exit
              (Some (Exn (OtherError "CalledProcessError") "build failed"))])%list.
Proof.
  split.
  - exact (X12_Build_execute_exit_suppresses suppressing_world example_build
             (fun _ _ => eq_refl) eq_refl).
  - reflexivity.
Defined.

Lemma Build_execute_frame (w : world) (self : Build) (s : state) :
  stdout (fst (Build_execute w self s)) = stdout s
  /\ exists new, trace (fst (Build_execute w self s)) = (trace s ++ new)%list.
Proof.
  unfold Build_execute, with_, bind, invoke, ret, raise. cbn -[append].
  destruct (conda_env self) as [env|]; cbn -[append];
    repeat (next_call w); exit_result;
    (split; [reflexivity|]);
    eexists; rewrite <- ?app_assoc; reflexivity.
Qed.

(** X13: [Build.execute] writes nothing to the standard output, and the
    calls made before it stay in the trace, in any state it is started
    in. *)
Theorem X13_Build_execute_frame (w : world) (self : Build) (s : state) :
  stdout (fst (Build_execute w self s)) = stdout s
  /\ exists new, trace (fst (Build_execute w self s)) = (trace s ++ new)%list.
Proof. exact (Build_execute_frame w self s). Qed.

Lemma startswith_slash_as_posix (p : Path) :
  is_absolute p = true -> startswith "/" (as_posix p) = true.
Proof.
  destruct p as [[| |] parts]; simpl; intros H;
    [discriminate H | reflexivity | reflexivity].
Qed.

(** X14: constructor and [execute] together: for a [Build] made by the
    constructor from an environment file [conda_env], relative or not,
    the install command names that file by an absolute path (one that
    starts with a slash), namely the working directory of construction
    joined with it. *)
Theorem X14_install_command_names_absolute_path
    (cwd : Path) (w : world) (image_path base_image : value)
    (conda_env : Path) (self : Build) :
  is_absolute cwd = true ->
  all_return w ->
  Build_init cwd image_path base_image (VPath conda_env) = Return self ->
  In (CondaInstall_run_command
        ("conda env create -f " ++ as_posix (absolute cwd conda_env)
         ++ " -n conda_container_env"))
     (calls (trace_of (Build_execute w self)))
  /\ startswith "/" (as_posix (absolute cwd conda_env)) = true.
Proof.
  intros Hcwd Hall Hinit.
  split; [|now apply startswith_slash_as_posix, absolute_is_absolute].
  destruct image_path as [| |p|]; simpl in Hinit; try discriminate Hinit.
  injection Hinit as <-.
  destruct (Build_execute_conda_calls w
              (MkBuild (absolute cwd p) base_image
                       (Some (absolute cwd conda_env)))
              (absolute cwd conda_env) eq_refl Hall)
    as (_ & dir & script & ->).
  right; right; right; left; reflexivity.
Qed.

Lemma X14_witness :
  In (CondaInstall_run_command
        "conda env create -f /home/user/env.yml -n conda_container_env")
     (calls (trace_of (Build_execute quiet_world example_build))).
Proof.
  exact (proj1 (X14_install_command_names_absolute_path example_cwd
                  quiet_world (VPath (MkPath NoRoot ["image.sif"]))
                  (VStr "docker://ubuntu:22.04") (MkPath NoRoot ["env.yml"])
                  example_build eq_refl quiet_world_all_return eq_refl)).
Defined.

(* ------------------------------------------------------------------ *)
(** ** The dispatcher: from the namespace to the subcommand *)

Lemma lookup_without_subcommand_cls (key : string) (ns : namespace) :
  key <> "subcommand_cls" ->
  lookup key (without_subcommand_cls ns) = lookup key ns.
Proof.
  intros Hkey. induction ns as [|[k v] ns IH]; [reflexivity|].
  unfold without_subcommand_cls in *. simpl.
  destruct (String.eqb k "subcommand_cls") eqn:Hk; simpl.
  - apply String.eqb_eq in Hk; subst k.
    destruct (String.eqb "subcommand_cls" key) eqn:Hk'.
    + apply String.eqb_eq in Hk'. congruence.
    + exact IH.
  - now rewrite IH.
Qed.

Lemma no_unexpected_keyword (ns : namespace) :
  (forall k v, In (k, v) ns -> k = "subcommand_cls" \/ In k Build_keywords) ->
  filter (fun kv => negb (existsb (String.eqb (fst kv)) Build_keywords))
         (without_subcommand_cls ns) = [].
Proof.
  intros Hkeys. induction ns as [|[k v] ns IH]; [reflexivity|].
  unfold without_subcommand_cls in *. simpl.
  assert (IH' := IH (fun k' v' H => Hkeys k' v' (or_intror H))).
  destruct (Hkeys k v (or_introl eq_refl)) as [-> | Hin].
  - simpl. exact IH'.
  - destruct (String.eqb k "subcommand_cls"); simpl; [exact IH'|].
    assert (Hk : existsb (String.eqb k) Build_keywords = true).
    { apply existsb_exists. exists k. split; [exact Hin | apply String.eqb_refl]. }
    unfold Build_keywords in Hk. simpl in Hk. rewrite Hk. exact IH'.
Qed.

Lemma BuilderCLI_init_parsed
    (repr : string -> string) (cwd : Path)
    (parse_args : arg_parser -> list string -> parse_outcome)
    (argv : list string) (ns : namespace) :
  parse_args cli_parser argv = Parsed ns ->
  BuilderCLI_init repr cwd parse_args argv (State [] "") =
  match construct_subcommand repr cwd ns (without_subcommand_cls ns) with
  | Return sub => (State [] "", Return (MkBuilderCLI ns sub))
  | Raise e =>
      if is_AttributeError e
      then (State [] "",
            Return (MkBuilderCLI ns (NoSubcommand_object cli_parser)))
      else (State [] "", Raise e)
  end.
Proof.
  intros Hparse.
  unfold BuilderCLI_init, bind, lift, run_parse_args, without_subcommand_cls,
    ret, raise.
  rewrite make_parser_returns, Hparse.
  destruct (construct_subcommand repr cwd ns _) as [sub|e]; [reflexivity|].
  destruct (is_AttributeError e); reflexivity.
Qed.

(** X15: when the parsed namespace selects [Info] and holds nothing else,
    the process prints the one line of [Info.execute] and leaves with
    status 0, calling no collaborator. *)
Theorem X15_info_run
    (repr : string -> string) (cwd : Path) (w : world)
    (parse_args : arg_parser -> list string -> parse_outcome)
    (format_help : arg_parser -> string)
    (argv : list string) (ns : namespace) :
  parse_args cli_parser argv = Parsed ns ->
  lookup "subcommand_cls" ns = Some (VClass cls_Info) ->
  (forall k v, In (k, v) ns -> k = "subcommand_cls") ->
  main repr cwd w parse_args format_help argv (State [] "") =
    (State []
       ("Sorry, no information about your system is available at this time."
        ++ LF),
     Return tt)
  /\ snd (run repr cwd w parse_args format_help argv) = 0%Z.
Proof.
  intros Hparse Hcls Honly.
  assert (Hargs : without_subcommand_cls ns = []).
  { clear Hparse Hcls. induction ns as [|[k v] ns IH]; [reflexivity|].
    unfold without_subcommand_cls in *. simpl.
    rewrite (Honly k v (or_introl eq_refl)). simpl.
    apply IH. intros k' v' H. exact (Honly k' v' (or_intror H)). }
  assert (Hmain : main repr cwd w parse_args format_help argv (State [] "") =
                  (State []
                     ("Sorry, no information about your system is available at this time."
                      ++ LF),
                   Return tt)).
  { unfold main, bind.
    rewrite (BuilderCLI_init_parsed repr cwd parse_args argv ns Hparse).
    unfold construct_subcommand. rewrite Hcls, Hargs. reflexivity. }
  split; [exact Hmain|].
  unfold run. rewrite Hmain. reflexivity.
Qed.

Lemma X15_witness :
  main repr_plain example_cwd quiet_world
       (fun _ _ => Parsed [("subcommand_cls", VClass cls_Info)])
       format_help_model ["info"] (State [] "") =
    (State []
       ("Sorry, no information about your system is available at this time."
        ++ LF),
     Return tt).
Proof.
  refine (proj1 (X15_info_run repr_plain example_cwd quiet_world
                   (fun _ _ => Parsed [("subcommand_cls", VClass cls_Info)])
                   format_help_model ["info"]
                   [("subcommand_cls", VClass cls_Info)] eq_refl eq_refl _)).
  intros k v [H | []]. now injection H as <- _.
Defined.

Lemma main_Build
    (repr : string -> string) (cwd : Path) (w : world)
    (parse_args : arg_parser -> list string -> parse_outcome)
    (format_help : arg_parser -> string)
    (argv : list string) (ns : namespace)
    (image_path : Path) (conda_env : option Path) :
  parse_args cli_parser argv = Parsed ns ->
  lookup "subcommand_cls" ns = Some (VClass cls_Build) ->
  (forall k v, In (k, v) ns -> k = "subcommand_cls" \/ In k Build_keywords) ->
  lookup "image_path" ns = Some (VPath image_path) ->
  keyword_or_None "conda_env" ns = conda_env_argument conda_env ->
  let self := MkBuild (absolute cwd image_path)
                      (keyword_or_None "base_image" ns)
                      (option_map (absolute cwd) conda_env) in
  BuilderCLI_init repr cwd parse_args argv (State [] "") =
    (State [] "", Return (MkBuilderCLI ns (Build_object self)))
  /\ main repr cwd w parse_args format_help argv (State [] "") =
       Build_execute w self (State [] "").
Proof.
  intros Hparse Hcls Hkeys Hpath Henv self.
  assert (Hinit : BuilderCLI_init repr cwd parse_args argv (State [] "") =
                  (State [] "", Return (MkBuilderCLI ns (Build_object self)))).
  { rewrite (BuilderCLI_init_parsed repr cwd parse_args argv ns Hparse).
    unfold construct_subcommand. rewrite Hcls. unfold instantiate.
    rewrite (no_unexpected_keyword ns Hkeys).
    unfold keyword_or_None in *.
    rewrite !lookup_without_subcommand_cls by discriminate.
    rewrite Hpath, Henv. subst self.
    destruct conda_env as [q|]; reflexivity. }
  split; [exact Hinit|].
  unfold main, bind. rewrite Hinit. reflexivity.
Qed.

(** X16: when the parsed namespace selects [Build], has no key besides
    [subcommand_cls] and the three keywords of [Build], and holds a path
    for [image_path], the subcommand is the [Build] made from the values
    of the namespace, in whatever order they are, with the paths made
    absolute and a missing [conda_env] taken as [None]; the key
    [subcommand_cls] is not passed on; and the process runs
    [Build.execute] of that object. *)
Theorem X16_build_arguments_bound
    (repr : string -> string) (cwd : Path) (w : world)
    (parse_args : arg_parser -> list string -> parse_outcome)
    (format_help : arg_parser -> string)
    (argv : list string) (ns : namespace)
    (image_path : Path) (conda_env : option Path) :
  parse_args cli_parser argv = Parsed ns ->
  lookup "subcommand_cls" ns = Some (VClass cls_Build) ->
  (forall k v, In (k, v) ns -> k = "subcommand_cls" \/ In k Build_keywords) ->
  lookup "image_path" ns = Some (VPath image_path) ->
  keyword_or_None "conda_env" ns = conda_env_argument conda_env ->
  let self := MkBuild (absolute cwd image_path)
                      (keyword_or_None "base_image" ns)
                      (option_map (absolute cwd) conda_env) in
  BuilderCLI_init repr cwd parse_args argv (State [] "") =
    (State [] "", Return (MkBuilderCLI ns (Build_object self)))
  /\ main repr cwd w parse_args format_help argv (State [] "") =
       Build_execute w self (State [] "").
Proof.
  intros Hparse Hcls Hkeys Hpath Henv.
  exact (main_Build repr cwd w parse_args format_help argv ns image_path
           conda_env Hparse Hcls Hkeys Hpath Henv).
Qed.

(** X16 at a namespace in another order than the parameters of [Build]. *)
Lemma X16_witness :
  let ns := [ ("conda_env", VNone);
              ("subcommand_cls", VClass cls_Build);
              ("base_image", VStr "docker://ubuntu:22.04");
              ("image_path", VPath (MkPath NoRoot ["image.sif"])) ] in
  BuilderCLI_init repr_plain example_cwd (fun _ _ => Parsed ns)
                  ["build"] (State [] "") =
  (State [] "", Return (MkBuilderCLI ns (Build_object example_build_plain))).
Proof.
  intros ns.
  refine (proj1 (X16_build_arguments_bound repr_plain example_cwd quiet_world
                   (fun _ _ => Parsed ns) format_help_model ["build"] ns
                   (MkPath NoRoot ["image.sif"]) None
                   eq_refl eq_refl _ eq_refl eq_refl)).
  intros k v Hin. simpl in Hin.
  destruct Hin as [H | [H | [H | [H | []]]]]; injection H as <- _;
    simpl; tauto.
Defined.

(** X17: when [parse_args] leaves (a usage error, or a help flag), the
    process writes what [parse_args] wrote and nothing else, leaves with
    its status, and no subcommand is made or executed: the [SystemExit]
    is not caught by the handler for a missing subcommand. *)
Theorem X17_parse_exit_propagates
    (repr : string -> string) (cwd : Path) (w : world)
    (parse_args : arg_parser -> list string -> parse_outcome)
    (format_help : arg_parser -> string)
    (argv : list string) (output : string) (code : Z) :
  parse_args cli_parser argv = Exits output code ->
  main repr cwd w parse_args format_help argv (State [] "") =
    (State [] output, Raise (Exn (SystemExit code) ""))
  /\ run repr cwd w parse_args format_help argv = (output, code).
Proof.
  intros Hparse.
  assert (Hmain : main repr cwd w parse_args format_help argv (State [] "") =
                  (State [] output, Raise (Exn (SystemExit code) ""))).
  { unfold main, BuilderCLI_init, bind, lift, run_parse_args.
    rewrite make_parser_returns, Hparse. reflexivity. }
  split; [exact Hmain|].
  unfold run. rewrite Hmain. reflexivity.
Qed.

Lemma X17_witness :
  run repr_plain example_cwd quiet_world parse_args_model format_help_model
      ["--unknown"] = ("", 2%Z).
Proof.
  exact (proj2 (X17_parse_exit_propagates repr_plain example_cwd quiet_world
                  parse_args_model format_help_model ["--unknown"] "" 2
                  eq_refl)).
Defined.

(** X18: an exception raised while the subcommand is constructed goes on
    to the process boundary (status 1, nothing printed) unless it is an
    [AttributeError]: that one is taken for a missing subcommand, whatever
    raised it, and the process prints the help text and leaves with
    status 0. *)
Theorem X18_constructor_exception
    (repr : string -> string) (cwd : Path) (w : world)
    (parse_args : arg_parser -> list string -> parse_outcome)
    (format_help : arg_parser -> string)
    (argv : list string) (ns : namespace) (e : exn) :
  parse_args cli_parser argv = Parsed ns ->
  construct_subcommand repr cwd ns (without_subcommand_cls ns) = Raise e ->
  run repr cwd w parse_args format_help argv =
  if is_AttributeError e then (format_help cli_parser, 0%Z)
  else match exn_class e with
       | SystemExit code => ("", code)
       | _ => ("", 1%Z)
       end.
Proof.
  intros Hparse Hraise.
  unfold run, main, bind.
  rewrite (BuilderCLI_init_parsed repr cwd parse_args argv ns Hparse), Hraise.
  destruct e as [cls msg]; destruct cls; reflexivity.
Qed.

(** X18 at a namespace that selects [Build] without an [image_path]: the
    [AttributeError] of the constructor is taken for a missing
    subcommand. *)
Lemma X18_witness :
  run repr_plain example_cwd quiet_world
      (fun _ _ => Parsed [("subcommand_cls", VClass cls_Build)])
      format_help_model ["build"] = (format_help_model cli_parser, 0%Z).
Proof.
  exact (X18_constructor_exception repr_plain example_cwd quiet_world
           (fun _ _ => Parsed [("subcommand_cls", VClass cls_Build)])
           format_help_model ["build"]
           [("subcommand_cls", VClass cls_Build)]
           (Exn AttributeError "'NoneType' object has no attribute 'absolute'")
           eq_refl eq_refl).
Defined.

(** X19: a build run writes nothing to the standard output, whether
    [Build.execute] returns or raises; and when [Build.execute] returns,
    the process leaves with status 0. *)
Theorem X19_build_run_quiet
    (repr : string -> string) (cwd : Path) (w : world)
    (parse_args : arg_parser -> list string -> parse_outcome)
    (format_help : arg_parser -> string)
    (argv : list string) (ns : namespace)
    (image_path : Path) (conda_env : option Path) :
  parse_args cli_parser argv = Parsed ns ->
  lookup "subcommand_cls" ns = Some (VClass cls_Build) ->
  (forall k v, In (k, v) ns -> k = "subcommand_cls" \/ In k Build_keywords) ->
  lookup "image_path" ns = Some (VPath image_path) ->
  keyword_or_None "conda_env" ns = conda_env_argument conda_env ->
  fst (run repr cwd w parse_args format_help argv) = ""
  /\ (result_of (Build_execute w
                   (MkBuild (absolute cwd image_path)
                            (keyword_or_None "base_image" ns)
                            (option_map (absolute cwd) conda_env)))
      = Return tt ->
      run repr cwd w parse_args format_help argv = ("", 0%Z)).
Proof.
  intros Hparse Hcls Hkeys Hpath Henv.
  destruct (main_Build repr cwd w parse_args format_help argv ns image_path
              conda_env Hparse Hcls Hkeys Hpath Henv) as [_ Hmain].
  unfold run, result_of. rewrite Hmain.
  set (self := MkBuild (absolute cwd image_path)
                       (keyword_or_None "base_image" ns)
                       (option_map (absolute cwd) conda_env)).
  destruct (Build_execute_frame w self (State [] "")) as [Hout _].
  destruct (Build_execute w self (State [] "")) as [s [u|e]];
    simpl in *; rewrite Hout.
  - split; [reflexivity | intros _; reflexivity].
  - split; [destruct (exn_class e); reflexivity | intros H; discriminate H].
Qed.

(** X19 in the world where every call returns. *)
Lemma X19_witness :
  let ns := [ ("subcommand_cls", VClass cls_Build);
              ("image_path", VPath (MkPath NoRoot ["image.sif"]));
              ("base_image", VStr "docker://ubuntu:22.04");
              ("conda_env", VPath (MkPath NoRoot ["env.yml"])) ] in
  run repr_plain example_cwd quiet_world (fun _ _ => Parsed ns)
      format_help_model ["build"] = ("", 0%Z).
Proof.
  intros ns.
  refine (proj2 (X19_build_run_quiet repr_plain example_cwd quiet_world
                   (fun _ _ => Parsed ns) format_help_model ["build"] ns
                   (MkPath NoRoot ["image.sif"])
                   (Some (MkPath NoRoot ["env.yml"]))
                   eq_refl eq_refl _ eq_refl eq_refl) eq_refl).
  intros k v Hin. simpl in Hin.
  destruct Hin as [H | [H | [H | [H | []]]]]; injection H as <- _;
    simpl; tauto.
Defined.

(* ------------------------------------------------------------------ *)
(** ** The dispatcher: building the parser *)

Lemma is_linebreak_is_space (c : ascii) :
  is_linebreak c = true -> is_space c = true.
Proof.
  destruct c as [[] [] [] [] [] [] [] []]; vm_compute; intros H;
    first [reflexivity | discriminate H].
Qed.

Lemma splitlines_first (c : ascii) (s : string) :
  is_linebreak c = false ->
  exists line rest, splitlines (String c s) = String c line :: rest.
Proof.
  intros Hc. simpl. rewrite Hc.
  destruct (splitlines s) as [|l ls]; eexists; eexists; reflexivity.
Qed.

(** X20: the summary of a docstring ([doc.strip().splitlines()[0]]) raises
    [IndexError] exactly when the docstring is empty or all white space;
    otherwise it is a line that is not empty and starts with no white
    space. *)
Theorem X20_doc_summary (doc : string) :
  match doc_summary doc with
  | Raise e => strip doc = "" /\ e = Exn IndexError "list index out of range"
  | Return line => strip doc <> "" /\ line <> "" /\ lstrip line = line
  end.
Proof.
  unfold doc_summary.
  assert (Hfixed : lstrip (strip doc) = strip doc)
    by (unfold strip; apply lstrip_idempotent).
  destruct (strip doc) as [|c s] eqn:Hstrip; [simpl; split; reflexivity|].
  apply lstrip_fixed_iff in Hfixed.
  assert (Hbreak : is_linebreak c = false).
  { destruct (is_linebreak c) eqn:Hb; [|reflexivity].
    apply is_linebreak_is_space in Hb. congruence. }
  destruct (splitlines_first c s Hbreak) as (line & rest & ->).
  repeat split; try discriminate.
  now apply lstrip_fixed_iff.
Qed.

Lemma subcommand_class_registers
    (repr : string -> string) (cls : subcommand_class) :
  exists summary arguments,
    doc_summary (class_doc cls) = Return summary
    /\ add_arguments repr cls = Return arguments.
Proof.
  destruct cls; eexists; eexists; split; vm_compute; reflexivity.
Qed.

Lemma subcommand_name_injective (a b : subcommand_class) :
  lower (class_name a) = lower (class_name b) -> a = b.
Proof. destruct a, b; intros H; try reflexivity; vm_compute in H; discriminate H. Qed.

(** X21: registering a list of subcommand classes that differ, as the
    [Build, Info] of the source, does not raise (each class has a summary
    line, and each argument [Build] declares has its entry in the
    docstring of [Build]); the sub-parsers come in the order of the list,
    each named by the class name in lower case, with the class as
    [subcommand_cls] and the summary of its docstring as help and as
    description; and no name is registered twice. *)
Theorem X21_subcommands_registered
    (repr : string -> string) (subcommands : list subcommand_class) :
  NoDup subcommands ->
  exists subs,
    add_subcommands repr subcommands = Return subs
    /\ map sp_name subs = map (fun cls => lower (class_name cls)) subcommands
    /\ map sp_subcommand_cls subs = subcommands
    /\ (forall sp, In sp subs ->
          sp_help sp = sp_description sp
          /\ doc_summary (class_doc (sp_subcommand_cls sp)) =
             Return (sp_help sp))
    /\ NoDup (map sp_name subs).
Proof.
  induction subcommands as [|cls rest IH]; intros Hnd.
  - exists []. split; [reflexivity|]. split; [reflexivity|].
    split; [reflexivity|]. split; [intros sp [] | constructor].
  - inversion Hnd as [|? ? Hnotin Hrest]; subst.
    destruct (IH Hrest) as (subs & Hsubs & Hnames & Hcls & Hdoc & Hnodup).
    destruct (subcommand_class_registers repr cls)
      as (summary & arguments & Hsummary & Harguments).
    exists (MkSubParser (lower (class_name cls)) summary summary arguments cls
            :: subs).
    split; [cbn [add_subcommands]; rewrite Hsummary, Harguments, Hsubs;
            reflexivity|].
    split; [simpl; now rewrite Hnames|].
    split; [simpl; now rewrite Hcls|].
    split.
    + intros sp [<- | Hin]; [simpl; split; [reflexivity | exact Hsummary]|].
      now apply Hdoc.
    + simpl. constructor; [|exact Hnodup].
      rewrite Hnames. intros Hin. apply in_map_iff in Hin as (b & Hb & Hin).
      apply subcommand_name_injective in Hb. subst b. contradiction.
Qed.

(** X21 at the list of the source. *)
Lemma X21_witness :
  exists subs,
    add_subcommands repr_plain [cls_Build; cls_Info] = Return subs
    /\ map sp_name subs = ["build"; "info"]
    /\ map sp_subcommand_cls subs = [cls_Build; cls_Info]
    /\ NoDup (map sp_name subs).
Proof.
  assert (Hnd : NoDup [cls_Build; cls_Info]).
  { constructor; [intros [H | []]; discriminate H|].
    constructor; [intros [] | constructor]. }
  destruct (X21_subcommands_registered repr_plain [cls_Build; cls_Info] Hnd)
    as (subs & Hsubs & Hnames & Hcls & _ & Hnodup).
  exists subs. split; [exact Hsubs|]. split; [exact Hnames|].
  split; [exact Hcls | exact Hnodup].
Defined.
